(** * DatoCMS MCP tools: project router, field creation, record duplication

    A shallow embedding of three TypeScript units of the repository

    - [src/tools/Project/ProjectRouterTool.ts]: the handler registered by
      [registerProjectRouter], with [formatSchemaForDisplay] and
      [formatZodError];
    - the field-creation handler [createFieldHandler] with [getDefaultEditor];
    - the record-duplication handler [duplicateRecordHandler];

    and the properties of the specification that concern them.

    JavaScript values are a tree type, objects are finite maps from property
    names to values, [throw] and [try]/[catch] are an exception monad, and
    every call that leaves the unit (the schema's [parse], a routed handler,
    the content-platform client) is recorded in a trace, so that "the client
    is not called" is a statement about the trace. *)

From stdpp Require Import gmap strings list fin_maps pretty.
From Stdlib Require Import ZArith.

#[local] Set Warnings "-register-all".

(** ** JavaScript values *)

Module Js.

(** The values the handlers receive and return are JSON-like data.  Numbers
    are kept as integers: the code only tests numbers for truthiness and
    strict equality, and compares a length with zero. *)
Inductive JsVal : Type :=
| JUndefined
| JNull
| JBool (b : bool)
| JNum (n : Z)
| JStr (s : string)
| JArr (l : list JsVal)
| JObj (o : gmap string JsVal).

Abbreviation JsObj := (gmap string JsVal).

(** ToBoolean: what [if (v)], [!v], [a && b] and [a || b] test. *)
Definition truthy (v : JsVal) : bool :=
  match v with
  | JUndefined | JNull => false
  | JBool b => b
  | JNum n => negb (n =? 0)%Z
  | JStr s => negb (String.eqb s EmptyString)
  | JArr _ | JObj _ => true
  end.

(** [a || b] *)
Definition or_else (a b : JsVal) : JsVal := if truthy a then a else b.

(** [typeof v === 'object'] ([null] included, as in JavaScript). *)
Definition typeof_object (v : JsVal) : bool :=
  match v with
  | JNull | JArr _ | JObj _ => true
  | _ => false
  end.

Definition is_nullish (v : JsVal) : bool :=
  match v with
  | JUndefined | JNull => true
  | _ => false
  end.

(** [Array.isArray(v)] *)
Definition isArray (v : JsVal) : bool :=
  match v with
  | JArr _ => true
  | _ => false
  end.

(** [o.k] on an object whose own properties are [o]: an absent property reads
    as [undefined]. *)
Definition prop (o : JsObj) (k : string) : JsVal := default JUndefined (o !! k).

(** [v.k] for a value that is neither [null] nor [undefined].  Arrays and
    strings answer [length]; the property names the sources read are never
    array indices, so every other name reads as [undefined] on them, as it
    does on numbers and booleans. *)
Definition member (v : JsVal) (k : string) : JsVal :=
  match v with
  | JObj o => prop o k
  | JArr l => if String.eqb k "length" then JNum (Z.of_nat (length l)) else JUndefined
  | JStr s => if String.eqb k "length" then JNum (Z.of_nat (String.length s)) else JUndefined
  | _ => JUndefined
  end.

(** [v?.k] *)
Definition opt_member (v : JsVal) (k : string) : JsVal :=
  if is_nullish v then JUndefined else member v k.

(** ['k' in v] for an object or an array ([k] is never an index or [length]
    in the sources). *)
Definition has_in (k : string) (v : JsVal) : bool :=
  match v with
  | JObj o => bool_decide (is_Some (o !! k))
  | _ => false
  end.

(** [a === b].  Primitives compare by value; two objects or two arrays are
    equal only when they are the same reference, and the values compared in
    the sources come from different places of a parsed JSON document, so they
    never are. *)
Definition strict_eq (a b : JsVal) : bool :=
  match a, b with
  | JUndefined, JUndefined => true
  | JNull, JNull => true
  | JBool x, JBool y => bool_decide (x = y)
  | JNum x, JNum y => (x =? y)%Z
  | JStr x, JStr y => String.eqb x y
  | _, _ => false
  end.

(** [xs.join(sep)] on strings. *)
Fixpoint join (sep : string) (xs : list string) : string :=
  match xs with
  | [] => EmptyString
  | [x] => x
  | x :: rest => x +:+ sep +:+ join sep rest
  end.

(** ToString, as a template literal applies it to an interpolated value. *)
Fixpoint to_string (v : JsVal) : string :=
  match v with
  | JUndefined => "undefined"
  | JNull => "null"
  | JBool true => "true"
  | JBool false => "false"
  | JNum n => pretty n
  | JStr s => s
  | JArr l =>
      join "," (map (fun x => if is_nullish x then EmptyString else to_string x) l)
  | JObj _ => "[object Object]"
  end.

(** [s.includes(sub)] *)
Fixpoint includes (s sub : string) : bool :=
  String.prefix sub s ||
  match s with
  | EmptyString => false
  | String _ s' => includes s' sub
  end.

(** [s.toUpperCase()], on the ASCII letters; action names are ASCII
    identifiers. *)
Definition upper_ascii (c : Ascii.ascii) : Ascii.ascii :=
  let n := Ascii.nat_of_ascii c in
  if (97 <=? n)%nat && (n <=? 122)%nat then Ascii.ascii_of_nat (n - 32) else c.

Fixpoint toUpperCase (s : string) : string :=
  match s with
  | EmptyString => EmptyString
  | String c s' => String (upper_ascii c) (toUpperCase s')
  end.

(** The double quote character, for the message texts that quote JSON. *)
Definition dq : string := String (Ascii.ascii_of_nat 34) EmptyString.

(** ** Thrown values *)

(** Path segment of a validation issue: a property name or an array index. *)
Inductive PathSeg : Type :=
| PKey (k : string)
| PIdx (i : N).

Definition seg_to_string (p : PathSeg) : string :=
  match p with
  | PKey k => k
  | PIdx i => pretty i
  end.

(** A [ZodIssue], reduced to the two members [formatZodError] reads. *)
Record ZodIssue : Type := mkIssue {
  path : list PathSeg;
  message : string
}.

(** What a [throw] carries. [instanceof z.ZodError] tells the second
    constructor from the others. *)
Inductive Exn : Type :=
| JsError (msg : string)            (* new Error(msg) *)
| ZodError (issues : list ZodIssue) (* z.ZodError *)
| JsTypeError (what : string)       (* raised by the runtime *)
| Thrown (v : JsVal).               (* anything else, e.g. the client's API error *)

Definition instanceof_ZodError (e : Exn) : bool :=
  match e with
  | ZodError _ => true
  | _ => false
  end.

(** Outcome of an expression that may throw. *)
Inductive Result (A : Type) : Type :=
| Return (a : A)
| Throw (e : Exn).
Arguments Return {A} a.
Arguments Throw {A} e.

(** [v.k], which throws a [TypeError] when [v] is [null] or [undefined]. *)
Definition get (v : JsVal) (k : string) : Result JsVal :=
  if is_nullish v
  then Throw (JsTypeError ("Cannot read properties of " +:+ to_string v))
  else Return (member v k).

End Js.
Export Js.

(** ** Arguments of the handlers and what the client is sent *)

(** What the [editor] member of an appearance holds: a name, or, in the
    appearance that the handler builds itself, a member that the [editorMap]
    literal inherits from [Object.prototype] (see [getDefaultEditor]).  A
    string is read as the name. *)
Inductive EditorValue : Type :=
| EditorName (name : string)
| PrototypeMember (key : string).

Coercion EditorName : string >-> EditorValue.

(** An appearance whose editor is of type [E]. *)
Record AppearanceOf (E : Type) : Type := mkAppearance {
  editor : E;
  parameters : option JsObj;
  addons : option (list JsVal)
}.
Arguments mkAppearance {E} & editor parameters addons.
Arguments editor {E} a.
Arguments parameters {E} a.
Arguments addons {E} a.

(** [CreateFieldParams.appearance]: the editor is a string. *)
Definition Appearance : Type := AppearanceOf string.

(** The appearance of the attribute object sent to the client. *)
Definition SentAppearance : Type := AppearanceOf EditorValue.

(** The caller's appearance, as part of what is sent. *)
Definition sent (a : Appearance) : SentAppearance :=
  {| editor := EditorName (editor a);
     parameters := parameters a;
     addons := addons a |}.

Coercion sent : Appearance >-> SentAppearance.

(** [CreateFieldParams]: the members the handler names, and [restFieldData]
    for every other property of the argument ([label], [apiKey], ...). *)
Record CreateFieldParams : Type := mkCreateFieldParams {
  apiToken : option string;
  itemTypeId : string;
  environment : option string;
  field_type : string;
  validators : option JsObj;
  appearance : option Appearance;
  restFieldData : JsObj
}.

(** The attribute object handed to [client.fields.create]:
    [{ ...restFieldData, field_type, validators, appearance }]. *)
Record FieldData : Type := mkFieldData {
  fd_rest : JsObj;
  fd_field_type : string;
  fd_validators : JsObj;
  fd_appearance : SentAppearance
}.

(** [DuplicateRecordParams] *)
Record DuplicateRecordParams : Type := mkDuplicateRecordParams {
  dup_itemId : string;
  returnOnlyConfirmation : option bool;
  dup_apiToken : option string;
  dup_environment : option string
}.

(** ** Calls that leave the unit, and the monad that records them *)

Inductive Event : Type :=
| EvGetClient (token env : option string)      (* UnifiedClientManager.getDefaultClient *)
| EvFieldsCreate (id : string) (d : FieldData) (* client.fields.create *)
| EvItemsDuplicate (id : string)               (* client.items.duplicate *)
| EvParse (action : string) (args : JsObj)     (* actionSchema.parse *)
| EvHandler (action : string) (args : JsVal).  (* a routed handler *)

Module Eff.

(** A computation reads the trace so far and gives its outcome with the
    extended trace. *)
Definition M (A : Type) : Type := list Event -> Result A * list Event.

Definition ret {A} (a : A) : M A := fun t => (Return a, t).

Definition throw {A} (e : Exn) : M A := fun t => (Throw e, t).

Definition bind {A B} (m : M A) (k : A -> M B) : M B :=
  fun t =>
    match m t with
    | (Return a, t') => k a t'
    | (Throw e, t') => (Throw e, t')
    end.

(** [try { m } catch (e) { h e }] *)
Definition try_catch {A} (m : M A) (h : Exn -> M A) : M A :=
  fun t =>
    match m t with
    | (Return a, t') => (Return a, t')
    | (Throw e, t') => h e t'
    end.

(** An expression of the unit itself: no call is recorded. *)
Definition lift {A} (r : Result A) : M A := fun t => (r, t).

(** A call that leaves the unit: recorded, then answered by [r]. *)
Definition call {A} (ev : Event) (r : Result A) : M A := fun t => (r, t ++ [ev]).

(** [if (c) throw e;] *)
Definition throw_if (c : bool) (e : Exn) : M unit :=
  if c then throw e else ret tt.

End Eff.
Export Eff.

Notation "x <- m ;; k" := (bind m (fun x => k))
  (at level 100, m at next level, right associativity).
Notation "m ;;; k" := (bind m (fun _ => k))
  (at level 100, right associativity).

(** ** What the units import

    The files these come from are not among the sources at hand, so they are
    parameters of the development: every theorem holds for each choice. *)

Class Backend : Type := {
  (** [Client] of the content-platform library, and the calls made on it *)
  Client : Type;
  getDefaultClient : option string -> option string -> Result Client;
  fields_create : Client -> string -> FieldData -> Result JsVal;
  items_duplicate : Client -> string -> Result JsVal;
  (** [utils/errorHandlers], [utils/responseHandlers] *)
  extractDetailedErrorInfo : Exn -> string;
  createResponse : JsVal -> JsVal;
  createErrorResponse : JsVal -> JsVal;
  (** [JSON.stringify(v, null, 2)]: a string, [undefined], or a throw *)
  JSON_stringify : JsVal -> Result JsVal
}.

Class ProjectDomain : Type := {
  (** a [z.ZodSchema] *)
  Schema : Type;
  (** [projectSchemas[action]] and [projectActionsList] of [./schemas] *)
  projectSchemas : string -> option Schema;
  projectActionsList : list string;
  (** [schema.parse(args)], [schema.description], and the own properties of
      the object [schema.describe()] returns *)
  parse : Schema -> JsObj -> Result JsVal;
  description : Schema -> JsVal;
  describe : Schema -> Result JsObj;
  (** the two handlers the router dispatches to *)
  getProjectInfoHandler : JsVal -> Result JsVal;
  updateSiteSettingsHandler : JsVal -> Result JsVal;
  (** what [assertNever(value, message)] of [utils/exhaustive] throws; its
      return type is [never] *)
  assertNever : string -> string -> Exn;
  (** [s > 0] for a string [s] (StringToNumber), which the router can only
      meet on a malformed [validationErrors] member *)
  string_gt_zero : string -> bool
}.

(** ** Field creation: [createFieldHandler] *)

Module Msg.

(** A JSON key or string inside a message: the text between double quotes. *)
Definition q (s : string) : string := dq +:+ s +:+ dq.

Definition nl : string := String (Ascii.ascii_of_nat 10) EmptyString.

(** The JSON shape the first message asks for. *)
Definition rich_text_blocks_shape : string :=
  "{ " +:+ q "rich_text_blocks" +:+ ": { " +:+ q "item_types" +:+ ": [" +:+
  q "block_model_id1" +:+ ", " +:+ q "block_model_id2" +:+ "] } }".

Definition rich_text_blocks_missing : string :=
  "Missing required validator 'rich_text_blocks' for rich_text field. " +:+
  "Add " +:+ rich_text_blocks_shape +:+ " to validators.".

Definition structured_text_blocks_missing : string :=
  "Missing required validator 'structured_text_blocks' for structured_text field. " +:+
  "Add { " +:+ q "structured_text_blocks" +:+ ": { " +:+ q "item_types" +:+
  ": [] } } to validators.".

Definition single_block_blocks_missing : string :=
  "Missing required validator 'single_block_blocks' for single_block field. " +:+
  "Add { " +:+ q "single_block_blocks" +:+ ": { " +:+ q "item_types" +:+
  ": [] } } to validators.".

Definition enum_missing (editor : string) : string :=
  "Missing required validator 'enum' for string field with " +:+ editor +:+ " editor. " +:+
  "Add { " +:+ q "enum" +:+ ": { " +:+ q "values" +:+
  ": [...] } } to validators, and ensure values match the options.".

Definition enum_mismatch : string :=
  "Validator enum values must exactly match the option values in appearance.parameters.".

Definition item_item_type_missing : string :=
  "Missing required validator 'item_item_type' for link field. " +:+
  "Add { " +:+ q "item_item_type" +:+ ": { " +:+ q "item_types" +:+ ": [" +:+
  q "your_item_type_id" +:+ "] } } to validators.".

Definition item_item_type_empty : string :=
  "The 'item_item_type' validator must include an 'item_types' array with at least one valid item type ID.".

Definition items_item_type_missing : string :=
  "Missing required validator 'items_item_type' for links field. " +:+
  "Add { " +:+ q "items_item_type" +:+ ": { " +:+ q "item_types" +:+ ": [" +:+
  q "your_item_type_id" +:+ "] } } to validators.".

Definition items_item_type_empty : string :=
  "The 'items_item_type' validator must include an 'item_types' array with at least one valid item type ID.".

Definition required_unsupported : string :=
  "The 'required' validator is not supported on gallery, links, or rich_text fields. Remove it from the validators object.".

Definition slug_title_field_missing : string :=
  "Missing required validator 'slug_title_field' for slug field. " +:+
  "Add { " +:+ q "slug_title_field" +:+ ": { " +:+ q "title_field_id" +:+ ": " +:+
  q "<field_id>" +:+ " } } to validators.".

(** The rewritten upstream failures. *)

Definition addons_required : string :=
  "The 'addons' field is required in appearance object. " +:+
  "Always include it, at minimum as an empty array: { " +:+ q "addons" +:+ ": [] }".

Definition rich_text_blocks_required : string :=
  "Rich text fields require the 'rich_text_blocks' validator. " +:+
  "Example: { " +:+ q "rich_text_blocks" +:+ ": { " +:+ q "item_types" +:+ ": [" +:+
  q "block_model_id1" +:+ ", " +:+ q "block_model_id2" +:+ "] } }".

Definition start_collapsed_misplaced : string :=
  "The 'start_collapsed' parameter is valid for rich_text and single_block fields. " +:+
  "For structured_text fields use 'blocks_start_collapsed'. " +:+
  "Ensure you only include this parameter with the appropriate field types.".

Definition item_item_type_invalid : string :=
  "The item type IDs provided in 'item_item_type' are invalid or inaccessible. Verify the IDs and try again.".

Definition items_item_type_invalid : string :=
  "The item type IDs provided in 'items_item_type' are invalid or inaccessible. Verify the IDs and try again.".

Definition color_field_error : string :=
  "Error creating color field. Use appearance.editor 'color_picker' and set parameters.enable_alpha to false.".

Definition lat_lon_editor_error (errorMessage : string) : string :=
  "Error creating lat_lon field: Make sure you're using " +:+ q "editor" +:+ ": " +:+
  q "map" +:+ " (not " +:+ q "lat_lon_editor" +:+ ") in the appearance. " +:+ errorMessage.

Definition json_editor_error (errorMessage : string) : string :=
  "Error creating json field: Make sure you're using one of: " +:+ q "json_editor" +:+
  ", " +:+ q "string_multi_select" +:+ ", or " +:+ q "string_checkbox_group" +:+
  " as the editor. " +:+ errorMessage.

Definition editor_error (field_type errorMessage : string) : string :=
  "Error with field editor: Invalid editor for field type " +:+ field_type +:+
  ". Check docs/FIELD_CREATION_GUIDE.md for the correct editor names. " +:+ errorMessage.

Definition invalid_configuration (field_type editor errorMessage : string) : string :=
  "Error creating field: The field configuration is invalid. 

🔴 COMMON ISSUES AND SOLUTIONS:

1. For string fields with " +:+ q "string_radio_group" +:+ " or " +:+ q "string_select" +:+ " appearance:
   REQUIRED: Matching enum validators
   {
     " +:+ q "validators" +:+ ": {
       " +:+ q "enum" +:+ ": {" +:+ q "values" +:+ ": [" +:+ q "option_a" +:+ ", " +:+ q "option_b" +:+ "]}
     },
     " +:+ q "appearance" +:+ ": {
       " +:+ q "editor" +:+ ": " +:+ q "string_radio_group" +:+ ",
       " +:+ q "parameters" +:+ ": {" +:+ q "radios" +:+ ": [{" +:+ q "label" +:+ ": " +:+ q "Option A" +:+ ", " +:+ q "value" +:+ ": " +:+ q "option_a" +:+ "}, {" +:+ q "label" +:+ ": " +:+ q "Option B" +:+ ", " +:+ q "value" +:+ ": " +:+ q "option_b" +:+ "}]},
       " +:+ q "addons" +:+ ": []
     }
   }

2. For location (lat_lon) fields:
   REQUIRED: Use " +:+ q "map" +:+ " as the editor name
   {
     " +:+ q "field_type" +:+ ": " +:+ q "lat_lon" +:+ ",
     " +:+ q "appearance" +:+ ": {
       " +:+ q "editor" +:+ ": " +:+ q "map" +:+ ",
       " +:+ q "parameters" +:+ ": {},
       " +:+ q "addons" +:+ ": []
     }
   }

3. For text fields:
   REQUIRED: Include empty addons array
   {
     " +:+ q "field_type" +:+ ": " +:+ q "text" +:+ ",
     " +:+ q "appearance" +:+ ": {
       " +:+ q "editor" +:+ ": " +:+ q "textarea" +:+ ",
       " +:+ q "parameters" +:+ ": {" +:+ q "placeholder" +:+ ": " +:+ q "Enter text..." +:+ "},
       " +:+ q "addons" +:+ ": []
     }
   }

Field Type: " +:+ field_type +:+ "
Editor: " +:+ editor +:+ "
Error Details: " +:+ errorMessage.

Definition creation_error (errorMessage : string) : string :=
  "Error creating field: " +:+ errorMessage.

Definition field_created (label id : string) : string :=
  "Field '" +:+ label +:+ "' created successfully with ID: " +:+ id.

End Msg.

(** [editorMap] of [getDefaultEditor]. *)
Definition editorMap : gmap string string :=
  list_to_map [
    ("string", "single_line");
    ("text", "textarea");
    ("rich_text", "rich_text");
    ("structured_text", "structured_text");
    ("boolean", "boolean");
    ("integer", "integer");
    ("float", "float");
    ("date", "date_picker");
    ("date_time", "date_time_picker");
    ("file", "file");
    ("gallery", "gallery");
    ("link", "link_select");
    ("links", "links_select");
    ("color", "color_picker");
    ("json", "json_editor");
    ("lat_lon", "map");
    ("seo", "seo");
    ("video", "video");
    ("slug", "slug");
    ("single_block", "framed_single_block")
  ].

(** The names every object literal inherits from [Object.prototype]
    (ECMAScript, Annex B included).  Each reads as a function, [__proto__] as
    [Object.prototype] itself: all are truthy. *)
Definition objectPrototypeMembers : list string :=
  ["constructor"; "hasOwnProperty"; "isPrototypeOf"; "propertyIsEnumerable";
   "toLocaleString"; "toString"; "valueOf"; "__proto__";
   "__defineGetter__"; "__defineSetter__"; "__lookupGetter__"; "__lookupSetter__"].

(** [editorMap[fieldType] || "default_editor"].  The lookup reads an own
    entry of the literal, else a member inherited from [Object.prototype],
    else [undefined]; what it reads is kept when truthy. *)
Definition getDefaultEditor (fieldType : string) : EditorValue :=
  match editorMap !! fieldType with
  | Some name =>
      if String.eqb name EmptyString then EditorName "default_editor" else EditorName name
  | None =>
      if bool_decide (fieldType ∈ objectPrototypeMembers)
      then PrototypeMember fieldType
      else EditorName "default_editor"
  end.

(** [!validators || !validators[k]] *)
Definition lacks (vs : option JsObj) (k : string) : bool :=
  match vs with
  | None => true
  | Some o => negb (truthy (prop o k))
  end.

(** [validators?.[k]] *)
Definition validator (vs : option JsObj) (k : string) : JsVal :=
  match vs with
  | None => JUndefined
  | Some o => prop o k
  end.

(** [v?.length ?? 0], for the values it is read on: an array, or anything
    the [Array.isArray] test before it has already rejected. *)
Definition length_or_zero (v : JsVal) : nat :=
  match v with
  | JArr l => length l
  | _ => 0
  end.

(** The test of the two "Validate ... array" steps:
    [validators?.[k] &&
     (!Array.isArray(validators[k]?.item_types) ||
      (validators[k]?.item_types?.length ?? 0) === 0)] *)
Definition item_types_unusable (vs : option JsObj) (k : string) : bool :=
  let item_types := opt_member (validator vs k) "item_types" in
  truthy (validator vs k) &&
  (negb (isArray item_types) || (length_or_zero item_types =? 0)%nat).

(** [xs.map(f)] with a callback that may throw. *)
Fixpoint map_result {A B} (f : A -> Result B) (xs : list A) : Result (list B) :=
  match xs with
  | [] => Return []
  | x :: rest =>
      match f x with
      | Throw e => Throw e
      | Return y =>
          match map_result f rest with
          | Throw e => Throw e
          | Return ys => Return (y :: ys)
          end
      end
  end.

(** The [single_line] step: a [heading] parameter is written into the
    caller's appearance when it has none. *)
Definition default_heading (ft : string) (ap : option Appearance) : option Appearance :=
  match ap with
  | Some a =>
      if String.eqb ft "string" && String.eqb (editor a) "single_line" then
        let ps :=
          match parameters a with
          | None => {[ "heading" := JBool false ]}
          | Some p =>
              if strict_eq (prop p "heading") JUndefined
              then <[ "heading" := JBool false ]> p
              else p
          end in
        Some {| editor := editor a; parameters := Some ps; addons := addons a |}
      else Some a
  | None => None
  end.

(** [field_type === 'string' && appearance && (editor is a radio group or a
    select)]: the appearance, when the three hold. *)
Definition choice_appearance (ft : string) (ap : option Appearance) : option Appearance :=
  match ap with
  | Some a =>
      if String.eqb ft "string" &&
         (String.eqb (editor a) "string_radio_group" || String.eqb (editor a) "string_select")
      then Some a else None
  | None => None
  end.

(** [(parameters.radios || parameters.options || []).map((o) => o.value)] *)
Definition optionValues (a : Appearance) : Result (list JsVal) :=
  let ps := default ∅ (parameters a) in
  match or_else (or_else (prop ps "radios") (prop ps "options")) (JArr []) with
  | JArr os => map_result (fun o => get o "value") os
  | _ => Throw (JsTypeError "map is not a function")
  end.

(** [optionValues.length !== enumValues.length ||
     optionValues.some((v, idx) => v !== enumValues[idx])] *)
Definition mismatch (optionValues enumValues : list JsVal) : bool :=
  negb (length optionValues =? length enumValues)%nat ||
  existsb id
    (imap (fun idx v => negb (strict_eq v (default JUndefined (enumValues !! idx))))
          optionValues).

(** The "enum values match the options" step. *)
Definition check_enum_options (ft : string) (ap : option Appearance)
    (vs : option JsObj) : Result unit :=
  match choice_appearance ft ap with
  | Some a =>
      if truthy (validator vs "enum") then
        match opt_member (validator vs "enum") "values" with
        | JArr enumValues =>
            match optionValues a with
            | Throw e => Throw e
            | Return ovs =>
                if mismatch ovs enumValues
                then Throw (JsError Msg.enum_mismatch)
                else Return tt
            end
        | _ => Return tt
        end
      else Return tt
  | None => Return tt
  end.

(** [validators.required !== undefined] on present validators *)
Definition has_required (vs : option JsObj) : bool :=
  match vs with
  | Some o => negb (strict_eq (prop o "required") JUndefined)
  | None => false
  end.

(** "Ensure addons array is present" *)
Definition ensure_addons (ap : option Appearance) : option Appearance :=
  match ap with
  | Some a =>
      match addons a with
      | None => Some {| editor := editor a; parameters := parameters a; addons := Some [] |}
      | Some _ => Some a
      end
  | None => None
  end.

(** "Correct editor name for lat_lon field type" *)
Definition correct_lat_lon (ft : string) (pa : option Appearance) : option Appearance :=
  match pa with
  | Some a =>
      if String.eqb ft "lat_lon" && String.eqb (editor a) "lat_lon_editor"
      then Some {| editor := "map"; parameters := parameters a; addons := addons a |}
      else Some a
  | None => None
  end.

(** [processedAppearance?.parameters || {}] and
    [processedAppearance?.addons || []] *)
Definition parameters_or_empty (pa : option Appearance) : JsObj :=
  default ∅ (pa ≫= parameters).

Definition addons_or_empty (pa : option Appearance) : list JsVal :=
  default [] (pa ≫= addons).

(** "Force correct editor and parameters for color fields": the caller's
    parameters are spread over the default. *)
Definition force_color (ft : string) (pa : option Appearance) : option Appearance :=
  if String.eqb ft "color" then
    Some {| editor := "color_picker";
            parameters := Some (parameters_or_empty pa ∪ {[ "enable_alpha" := JBool false ]});
            addons := Some (addons_or_empty pa) |}
  else pa.

(** "Provide default parameters for structured text fields" *)
Definition default_structured_text (ft : string) (pa : option Appearance) : option Appearance :=
  if String.eqb ft "structured_text" then
    Some {| editor := "structured_text";
            parameters :=
              Some (parameters_or_empty pa ∪
                    {[ "blocks_start_collapsed" := JBool false;
                       "show_links_target_blank" := JBool true;
                       "show_links_meta_editor" := JBool true ]});
            addons := Some (addons_or_empty pa) |}
  else pa.

(** The appearance sent to the client, from the caller's (after the
    [single_line] step). *)
Definition processAppearance (ft : string) (ap : option Appearance) : option Appearance :=
  default_structured_text ft (force_color ft (correct_lat_lon ft (ensure_addons ap))).

(** [fieldData] *)
Definition fieldData (args : CreateFieldParams) (processedAppearance : option Appearance)
    : FieldData :=
  {| fd_rest := restFieldData args;
     fd_field_type := field_type args;
     fd_validators := default ∅ (validators args);
     fd_appearance :=
       match processedAppearance with
       | Some a => sent a
       | None =>
           {| editor := getDefaultEditor (field_type args);
              parameters := Some ∅;
              addons := Some [] |}
       end |}.

Section Handlers.
Context {B : Backend}.

(** The [catch] block of [createFieldHandler]: the upstream failure is
    matched against the known signatures, in this order.  [errorMessage] is
    a string, so the [typeof] test around the first six holds. *)
Definition rewrite_upstream_error (args : CreateFieldParams) (error : Exn) : M JsVal :=
  let errorMessage := extractDetailedErrorInfo error in
  throw_if (includes errorMessage "addons") (JsError Msg.addons_required) ;;;
  throw_if (includes errorMessage "rich_text_blocks") (JsError Msg.rich_text_blocks_required) ;;;
  throw_if (includes errorMessage "start_collapsed") (JsError Msg.start_collapsed_misplaced) ;;;
  throw_if (includes errorMessage "item_item_type") (JsError Msg.item_item_type_invalid) ;;;
  throw_if (includes errorMessage "items_item_type") (JsError Msg.items_item_type_invalid) ;;;
  throw_if (String.eqb (field_type args) "color") (JsError Msg.color_field_error) ;;;
  throw_if (includes errorMessage "appearance.editor")
    (if String.eqb (field_type args) "lat_lon" then
       JsError (Msg.lat_lon_editor_error errorMessage)
     else if String.eqb (field_type args) "json" then
       JsError (Msg.json_editor_error errorMessage)
     else
       JsError (Msg.editor_error (field_type args) errorMessage)) ;;;
  throw_if (includes errorMessage "INVALID_FORMAT" || includes errorMessage "INVALID_FIELD")
    (JsError (Msg.invalid_configuration (field_type args)
                (match appearance args with
                 | Some a =>
                     if String.eqb (editor a) EmptyString then "not specified" else editor a
                 | None => "not specified"
                 end)
                errorMessage)) ;;;
  throw (JsError (Msg.creation_error errorMessage)).

(** The [try] block: the call, and the success response. *)
Definition create_and_respond (client : Client) (args : CreateFieldParams)
    (data : FieldData) : M JsVal :=
  field <- call (EvFieldsCreate (itemTypeId args) data)
                (fields_create client (itemTypeId args) data) ;;
  label <- lift (get field "label") ;;
  id <- lift (get field "id") ;;
  ret (createResponse
         (JObj {[ "success" := JBool true;
                  "data" := field;
                  "message" := JStr (Msg.field_created (to_string label) (to_string id)) ]})).

(** The statements of the handler before "Build the DatoCMS client": the
    checks, in the order of the source, and the appearance to send. *)
Definition validateAndProcess (args : CreateFieldParams) : M (option Appearance) :=
  let field_type := field_type args in
  let validators := validators args in
  (* Field-type specific validation *)
  throw_if (String.eqb field_type "rich_text" && lacks validators "rich_text_blocks")
    (JsError Msg.rich_text_blocks_missing) ;;;
  throw_if (String.eqb field_type "structured_text" && lacks validators "structured_text_blocks")
    (JsError Msg.structured_text_blocks_missing) ;;;
  throw_if (String.eqb field_type "single_block" && lacks validators "single_block_blocks")
    (JsError Msg.single_block_blocks_missing) ;;;
  (* String field with single_line editor requires heading parameter *)
  let appearance := default_heading field_type (appearance args) in
  (* String field with string_radio_group/string_select needs enum validator *)
  match choice_appearance field_type appearance with
  | Some a => throw_if (lacks validators "enum") (JsError (Msg.enum_missing (editor a)))
  | None => ret tt
  end ;;;
  (* Ensure enum validator values match the radio/select options *)
  lift (check_enum_options field_type appearance validators) ;;;
  (* Link field needs item_item_type validator *)
  throw_if (String.eqb field_type "link" && lacks validators "item_item_type")
    (JsError Msg.item_item_type_missing) ;;;
  (* Validate item_item_type array *)
  throw_if (String.eqb field_type "link" && item_types_unusable validators "item_item_type")
    (JsError Msg.item_item_type_empty) ;;;
  (* Links field needs items_item_type validator *)
  throw_if (String.eqb field_type "links" && lacks validators "items_item_type")
    (JsError Msg.items_item_type_missing) ;;;
  (* Validate items_item_type array *)
  throw_if (String.eqb field_type "links" && item_types_unusable validators "items_item_type")
    (JsError Msg.items_item_type_empty) ;;;
  (* 'required' validator not allowed on some field types *)
  throw_if (has_required validators &&
            (String.eqb field_type "gallery" || String.eqb field_type "links" ||
             String.eqb field_type "rich_text"))
    (JsError Msg.required_unsupported) ;;;
  (* Ensure addons array is present; correct the lat_lon editor; force the
     color editor; default the structured text parameters *)
  let processedAppearance := processAppearance field_type appearance in
  (* Slug fields require slug_title_field validator referencing title field *)
  throw_if (String.eqb field_type "slug" && lacks validators "slug_title_field")
    (JsError Msg.slug_title_field_missing) ;;;
  ret processedAppearance.

(** The function given to [createCustomHandler] for [create_field]. *)
Definition createFieldHandler (args : CreateFieldParams) : M JsVal :=
  processedAppearance <- validateAndProcess args ;;
  (* Build the DatoCMS client *)
  client <- call (EvGetClient (apiToken args) (environment args))
                 (getDefaultClient (apiToken args) (environment args)) ;;
  (* Prepare field data for the API, create the field *)
  try_catch
    (create_and_respond client args (fieldData args processedAppearance))
    (rewrite_upstream_error args).

(** ** Record duplication: [duplicateRecordHandler] *)

Definition duplicate_failed (itemId : string) : string :=
  "Failed to duplicate record with ID '" +:+ itemId +:+ "'.".

Definition duplicate_confirmation (itemId newId : string) : string :=
  "Successfully duplicated record with ID '" +:+ itemId +:+ "'. New record ID: '" +:+
  newId +:+ "'".

(** The function given to [createCustomHandler] for [duplicate]. *)
Definition duplicateRecordHandler (args : DuplicateRecordParams) : M JsVal :=
  let itemId := dup_itemId args in
  let returnOnlyConfirmation := default false (returnOnlyConfirmation args) in
  (* Get the records client (the module that provides it is taken as loaded) *)
  client <- call (EvGetClient (dup_apiToken args) (dup_environment args))
                 (getDefaultClient (dup_apiToken args) (dup_environment args)) ;;
  (* Duplicate the item *)
  duplicatedItem <- call (EvItemsDuplicate itemId) (items_duplicate client itemId) ;;
  (* If no item returned, return error *)
  throw_if (negb (truthy duplicatedItem)) (JsError (duplicate_failed itemId)) ;;;
  (* Return only confirmation message if requested (to save on tokens) *)
  if returnOnlyConfirmation then
    let message :=
      duplicate_confirmation itemId (to_string (member duplicatedItem "id")) in
    text <- lift (JSON_stringify
                    (JObj {[ "success" := JBool true; "message" := JStr message ]})) ;;
    ret (createResponse text)
  else
    (* Otherwise return the full record data *)
    text <- lift (JSON_stringify duplicatedItem) ;;
    ret (createResponse text).

End Handlers.

(** ** The project router: [registerProjectRouter] *)

Module Router.

Import Msg.

(** The guidance returned for an empty argument bag. *)
Definition parameters_required (action : string) : string :=
  "⚠️ PARAMETERS REQUIRED: You need to specify the parameters for the '" +:+ action +:+ "' action. ⚠️

To get the required parameters, use the datocms_parameters tool first with:
{
  " +:+ q "resource" +:+ ": " +:+ q "project" +:+ ",
  " +:+ q "action" +:+ ": " +:+ q action +:+ "
}

This will show you all the required parameters and their types.".

Definition unsupported_action (action : string) (actions : list string) : string :=
  "Error: Unsupported action '" +:+ action +:+ "'. Valid actions are: " +:+ join ", " actions.

Definition unhandled_action (action : string) : string :=
  "Unhandled project action: " +:+ action.

Definition validation_error (action errorFormatted schemaText : string) : string :=
  "⚠️ VALIDATION ERROR: Your parameters for '" +:+ action +:+ "' are incorrect or incomplete! ⚠️

" +:+ errorFormatted +:+ "

REQUIRED PARAMETERS FOR '" +:+ toUpperCase action +:+ "' ACTION:
" +:+ schemaText +:+ "

To see proper documentation, use the 'datocms_parameters' tool first with:

  action: " +:+ q "datocms_parameters" +:+ ",
  args: {
    resource: " +:+ q "project" +:+ ",
    action: " +:+ q action +:+ "
  }".

Definition error_validating (info : string) : string :=
  "Error validating arguments: " +:+ info.

Definition error_in_router (info : string) : string :=
  "Error in Project Router: " +:+ info.

(** One line of [formatZodError]: [`- ${issue.path.join('.')}: ${issue.message}`] *)
Definition issue_line (issue : ZodIssue) : string :=
  "- " +:+ join "." (map seg_to_string (path issue)) +:+ ": " +:+ message issue.

Definition formatZodError (issues : list ZodIssue) : string :=
  join nl (map issue_line issues).

(** [x > 0] *)
Definition gt_zero {D : ProjectDomain} (x : JsVal) : bool :=
  match x with
  | JUndefined | JNull | JObj _ => false
  | JBool b => b
  | JNum n => (0 <? n)%Z
  | JStr s => string_gt_zero s
  | JArr _ => string_gt_zero (to_string x)
  end.

Section Route.
Context {B : Backend} {D : ProjectDomain}.

Definition formatSchemaForDisplay (schema : Schema) : JsVal :=
  let description := or_else (description schema) (JStr "No description available") in
  match describe schema with
  | Return schemaDescription =>
      JObj (<[ "note" :=
                 JStr "For more detailed parameter information, use the 'datocms_parameters' tool" ]>
              schemaDescription)
  | Throw _ =>
      JObj {[ "type" := JStr "object";
              "description" := description;
              "note" := JStr "Schema details unavailable. Use the 'datocms_parameters' tool for parameter information." ]}
  end.

(** [`  - ${err.field || 'General'}: ${err.message}`] *)
Definition validation_error_line (err : JsVal) : Result string :=
  match get err "field" with
  | Throw e => Throw e
  | Return field =>
      Return ("  - " +:+ to_string (or_else field (JStr "General")) +:+ ": " +:+
              to_string (member err "message"))
  end.

(** The failure branch of the typed responses. *)
Definition render_failure (handlerResult : JsVal) : M JsVal :=
  let validationErrors := member handlerResult "validationErrors" in
  let plain :=
    ret (createErrorResponse
           (or_else (member handlerResult "error") (JStr "Unknown error occurred"))) in
  if truthy validationErrors then
    match validationErrors with
    | JArr errs =>
        if (0 <? length errs)%nat then
          lines <- lift (map_result validation_error_line errs) ;;
          ret (createErrorResponse
                 (JStr (to_string (or_else (member handlerResult "error")
                                           (JStr "Validation failed")) +:+
                        nl +:+ nl +:+ "Validation errors:" +:+ nl +:+ join nl lines)))
        else plain
    | other =>
        if gt_zero (member other "length")
        then throw (JsTypeError "map is not a function")
        else plain
    end
  else plain.

(** "Handle the new typed responses", and the fallback after it. *)
Definition render (handlerResult : JsVal) : M JsVal :=
  let fallback :=
    text <- lift (JSON_stringify handlerResult) ;;
    ret (createResponse text) in
  if truthy handlerResult && typeof_object handlerResult then
    if has_in "content" handlerResult then ret handlerResult
    else if has_in "success" handlerResult then
      if truthy (member handlerResult "success") then
        responseContent <- lift (JSON_stringify
                                   (or_else (member handlerResult "data") (JObj ∅))) ;;
        if truthy (member handlerResult "message") then
          ret (createResponse
                 (JStr (to_string responseContent +:+ nl +:+ nl +:+
                        to_string (member handlerResult "message"))))
        else ret (createResponse responseContent)
      else render_failure handlerResult
    else fallback
  else fallback.

(** The [switch]: the handler of the action, then the rendering of its
    result; an action without a case ends in [assertNever]. *)
Definition dispatch (action : string) (validatedArgs : JsVal) : M JsVal :=
  if String.eqb action "get_info" then
    handlerResult <- call (EvHandler action validatedArgs)
                          (getProjectInfoHandler validatedArgs) ;;
    render handlerResult
  else if String.eqb action "update_site_settings" then
    handlerResult <- call (EvHandler action validatedArgs)
                          (updateSiteSettingsHandler validatedArgs) ;;
    render handlerResult
  else throw (assertNever action (unhandled_action action)).

(** The inner [try]. *)
Definition validate_and_dispatch (action : string) (actionSchema : Schema)
    (args : JsObj) : M JsVal :=
  validatedArgs <- call (EvParse action args) (parse actionSchema args) ;;
  dispatch action validatedArgs.

(** The inner [catch]. *)
Definition on_validation_error (action : string) (actionSchema : Schema)
    (error : Exn) : M JsVal :=
  match error with
  | ZodError issues =>
      let schemaInfo := formatSchemaForDisplay actionSchema in
      let errorFormatted := formatZodError issues in
      schemaText <- lift (JSON_stringify schemaInfo) ;;
      ret (createErrorResponse
             (JStr (validation_error action errorFormatted (to_string schemaText))))
  | _ =>
      ret (createErrorResponse (JStr (error_validating (extractDetailedErrorInfo error))))
  end.

(** The handler registered for the tool [datocms_project];
    [args = None] is a call without [args]. *)
Definition route (action : string) (args : option JsObj) : M JsVal :=
  let args := default ∅ args in
  try_catch
    (if (size args =? 0)%nat then
       ret (createErrorResponse (JStr (parameters_required action)))
     else
       match projectSchemas action with
       | None =>
           ret (createErrorResponse (JStr (unsupported_action action projectActionsList)))
       | Some actionSchema =>
           try_catch
             (validate_and_dispatch action actionSchema args)
             (on_validation_error action actionSchema)
       end)
    (fun error =>
       ret (createErrorResponse (JStr (error_in_router (extractDetailedErrorInfo error))))).


End Route.

End Router.

(** ** An environment with scripted answers

    The units run on examples against these: a client that answers every
    call with a result fixed in advance, and a project domain of one schema. *)

Module Example.

Definition text_content (text : JsVal) : JsVal :=
  JObj {[ "content" := JArr [JObj {[ "type" := JStr "text"; "text" := text ]}] ]}.

Definition info (e : Exn) : string :=
  match e with
  | JsError m => m
  | JsTypeError m => m
  | ZodError _ => "ZodError"
  | Thrown v => to_string v
  end.

Definition backend (created duplicated : Result JsVal) : Backend :=
  {| Client := unit;
     getDefaultClient := fun _ _ => Return tt;
     fields_create := fun _ _ _ => created;
     items_duplicate := fun _ _ => duplicated;
     extractDetailedErrorInfo := info;
     createResponse := text_content;
     createErrorResponse := text_content;
     JSON_stringify := fun v => Return (JStr (to_string v)) |}.

Definition domain (parsed handled : Result JsVal) : ProjectDomain :=
  {| Schema := unit;
     projectSchemas := fun action =>
       if String.eqb action "get_info" || String.eqb action "update_site_settings"
       then Some tt else None;
     projectActionsList := ["get_info"; "update_site_settings"];
     parse := fun _ _ => parsed;
     description := fun _ => JUndefined;
     describe := fun _ => Return ({[ "typeName" := JStr "ZodObject" ]} : JsObj);
     getProjectInfoHandler := fun _ => handled;
     updateSiteSettingsHandler := fun _ => handled;
     assertNever := fun _ m => JsError m;
     string_gt_zero := fun _ => false |}.

(** A field: a plain text field, a colour field whose caller asks for an
    alpha channel, a location field with the old editor name, a rich text
    field without validators, a link field with an empty list of models. *)
Definition text_field : CreateFieldParams :=
  {| apiToken := Some "token"; itemTypeId := "model1"; environment := None;
     field_type := "text"; validators := None; appearance := None;
     restFieldData := {[ "label" := JStr "Body" ]} |}.

Definition color_field : CreateFieldParams :=
  {| apiToken := Some "token"; itemTypeId := "model1"; environment := None;
     field_type := "color"; validators := None;
     appearance := Some {| editor := "whatever";
                           parameters := Some {[ "enable_alpha" := JBool true ]};
                           addons := None |};
     restFieldData := {[ "label" := JStr "Tint" ]} |}.

Definition location_field : CreateFieldParams :=
  {| apiToken := Some "token"; itemTypeId := "model1"; environment := None;
     field_type := "lat_lon"; validators := None;
     appearance := Some {| editor := "lat_lon_editor"; parameters := None; addons := None |};
     restFieldData := {[ "label" := JStr "Place" ]} |}.


Definition link_field : CreateFieldParams :=
  {| apiToken := Some "token"; itemTypeId := "model1"; environment := None;
     field_type := "link";
     validators := Some {[ "item_item_type" := JObj {[ "item_types" := JArr [] ]} ]};
     appearance := None;
     restFieldData := {[ "label" := JStr "Author" ]} |}.

Definition valid_link_field : CreateFieldParams :=
  {| apiToken := Some "token"; itemTypeId := "model1"; environment := None;
     field_type := "link";
     validators :=
       Some {[ "item_item_type" := JObj {[ "item_types" := JArr [JStr "model2"] ]} ]};
     appearance := None;
     restFieldData := {[ "label" := JStr "Author" ]} |}.

(** Two upstream failures: one names the validator only, the other also
    mentions the addons. *)
Definition unknown_model : Exn :=
  Thrown (JStr "INVALID_FIELD: validators.item_item_type.item_types has unknown ids").

Definition unknown_model_and_addons : Exn :=
  Thrown (JStr "INVALID_FIELD: validators.item_item_type.item_types has unknown ids (appearance.addons was [])").

(** A failed validation with the one issue of a missing member [b]. *)
Definition missing_b : Exn := ZodError [mkIssue [PKey "b"] "Required"].

Definition created_field : JsVal :=
  JObj {[ "id" := JStr "f1"; "label" := JStr "Body" ]}.

Definition duplicate_args (confirm : option bool) : DuplicateRecordParams :=
  {| dup_itemId := "rec1"; returnOnlyConfirmation := confirm;
     dup_apiToken := Some "token"; dup_environment := None |}.

Definition duplicated_item : JsVal :=
  JObj {[ "id" := JStr "rec2"; "title" := JStr "Hello" ]}.

(** A client that creates and duplicates; one whose [fields.create] fails
    with [e]; one whose [items.duplicate] returns [null]. *)
Definition working : Backend := backend (Return created_field) (Return duplicated_item).

Definition failing (e : Exn) : Backend := backend (Throw e) (Return duplicated_item).

Definition forgetful : Backend := backend (Return created_field) (Return JNull).

(** A project domain whose handlers answer [{ success: true }], and one
    whose schema rejects every argument bag for its missing [b]. *)
Definition accepting : ProjectDomain :=
  domain (Return (JObj ∅)) (Return (JObj {[ "success" := JBool true ]})).

Definition rejecting : ProjectDomain :=
  domain (Throw missing_b) (Return JNull).

(** A field of the given kind, validators and appearance. *)
Definition field_of (kind : string) (vs : option JsObj) (ap : option Appearance)
    : CreateFieldParams :=
  {| apiToken := Some "token"; itemTypeId := "model1"; environment := None;
     field_type := kind; validators := vs; appearance := ap;
     restFieldData := {[ "label" := JStr "Field" ]} |}.

(** The options of a radio group, and an [enum] validator. *)
Definition radio_options (values : list string) : list JsObj :=
  (fun v => {[ "label" := JStr v; "value" := JStr v ]}) <$> values.

Definition radio_group (values : list string) : Appearance :=
  {| editor := "string_radio_group";
     parameters := Some {[ "radios" := JArr (JObj <$> radio_options values) ]};
     addons := Some [] |}.

Definition enum_of (values : list string) : JsObj :=
  {[ "enum" := JObj {[ "values" := JArr (JStr <$> values) ]} ]}.

(** A backend whose client cannot be built. *)
Definition unreachable : Backend :=
  {| Client := unit;
     getDefaultClient := fun _ _ => Throw (JsError "No API token");
     fields_create := fun _ _ _ => Return created_field;
     items_duplicate := fun _ _ => Return duplicated_item;
     extractDetailedErrorInfo := info;
     createResponse := text_content;
     createErrorResponse := text_content;
     JSON_stringify := fun v => Return (JStr (to_string v)) |}.

(** A backend whose [items.duplicate] fails. *)
Definition unduplicating (e : Exn) : Backend := backend (Return created_field) (Throw e).

(** A project domain whose handlers return [hr], and one whose handlers
    throw [e]. *)
Definition answering (hr : JsVal) : ProjectDomain := domain (Return (JObj ∅)) (Return hr).

Definition throwing (e : Exn) : ProjectDomain := domain (Return (JObj ∅)) (Throw e).







End Example.

(** * Properties *)

(** ** Substrings *)

Section Includes.

Lemma prefix_append (sub r : string) : String.prefix sub (sub +:+ r) = true.
Proof.
  induction sub as [|c sub IH]; simpl.
  - by destruct r.
  - destruct (Ascii.ascii_dec c c); [exact IH | contradiction].
Qed.

Lemma prefix_split (sub s : string) :
  String.prefix sub s = true -> exists r, s = sub +:+ r.
Proof.
  revert s. induction sub as [|c sub IH]; intros s Hp.
  - by exists s.
  - destruct s as [|d s]; simpl in Hp; [discriminate|].
    destruct (Ascii.ascii_dec c d) as [->|]; [|discriminate].
    destruct (IH _ Hp) as [r ->]. by exists r.
Qed.

Lemma includes_prefix (s sub : string) :
  String.prefix sub s = true -> includes s sub = true.
Proof. intros Hp. destruct s; cbn [includes]; by rewrite Hp. Qed.

Lemma includes_here (sub r : string) : includes (sub +:+ r) sub = true.
Proof. apply includes_prefix, prefix_append. Qed.

Lemma includes_append_r (l s sub : string) :
  includes s sub = true -> includes (l +:+ s) sub = true.
Proof.
  intros Hs. induction l as [|c l IH]; [done|].
  change (String c l +:+ s) with (String c (l +:+ s)).
  cbn [includes]. rewrite IH. by rewrite orb_true_r.
Qed.

Lemma includes_mid (l sub r : string) : includes (l +:+ sub +:+ r) sub = true.
Proof. apply includes_append_r, includes_here. Qed.

Lemma includes_split (s sub : string) :
  includes s sub = true -> exists l r, s = l +:+ sub +:+ r.
Proof.
  induction s as [|c s IH]; cbn [includes]; intros Hi.
  - rewrite orb_false_r in Hi. destruct (prefix_split _ _ Hi) as [r ->].
    by exists EmptyString, r.
  - apply orb_true_iff in Hi as [Hp|Hi].
    + destruct (prefix_split _ _ Hp) as [r ->]. by exists EmptyString, r.
    + destruct (IH Hi) as (l & r & ->). by exists (String c l), r.
Qed.

(** [s.includes(sub)] holds exactly when [sub] occurs somewhere in [s]. *)
Lemma includes_spec (s sub : string) :
  includes s sub = true <-> exists l r, s = l +:+ sub +:+ r.
Proof.
  split; [apply includes_split|]. intros (l & r & ->). apply includes_mid.
Qed.

Lemma append_assoc (a b c : string) : (a +:+ b) +:+ c = a +:+ (b +:+ c).
Proof.
  induction a as [|x a IH]; [done|].
  change (String x ((a +:+ b) +:+ c) = String x (a +:+ (b +:+ c))). by f_equal.
Qed.

Lemma includes_append_l (s r sub : string) :
  includes s sub = true -> includes (s +:+ r) sub = true.
Proof.
  intros Hs. apply includes_split in Hs as (l & r' & ->).
  rewrite !append_assoc. apply includes_mid.
Qed.

Lemma includes_refl (s : string) : includes s s = true.
Proof.
  apply includes_prefix. induction s as [|c s IH]; [done|]. simpl.
  by destruct (Ascii.ascii_dec c c).
Qed.

(** Every element of a joined list occurs in the result. *)
Lemma includes_join_line (sep : string) (lines : list string) (line : string) :
  line ∈ lines -> includes (join sep lines) line = true.
Proof.
  induction lines as [|x rest IH]; intros Hin; [by apply elem_of_nil in Hin|].
  apply elem_of_cons in Hin as [->|Hin].
  - destruct rest; simpl; [apply includes_refl | apply includes_here].
  - destruct rest as [|y rest]; [by apply elem_of_nil in Hin|].
    change (join sep (x :: y :: rest)) with (x +:+ sep +:+ join sep (y :: rest)).
    do 2 apply includes_append_r. by apply IH.
Qed.

End Includes.

(** Case analysis on every test a computation makes. *)
Ltac branches := repeat (case_match; simplify_eq/=; try done).

(** ** Field creation *)

Section FieldCreation.
Context {B : Backend}.

(** The checks make no call. *)
Lemma validateAndProcess_silent args t : (validateAndProcess args t).2 = t.
Proof. unfold validateAndProcess, bind, throw_if, ret, throw, lift. branches. Qed.

(** The [catch] block always throws an [Error], and makes no call. *)
Lemma rewrite_upstream_error_throws args e t :
  exists msg, rewrite_upstream_error args e t = (Throw (JsError msg), t).
Proof.
  unfold rewrite_upstream_error, bind, throw_if, ret, throw.
  repeat (case_match; simplify_eq/=; try by eexists).
Qed.

Lemma rewrite_upstream_error_silent args e t :
  (rewrite_upstream_error args e t).2 = t.
Proof. by destruct (rewrite_upstream_error_throws args e t) as [? ->]. Qed.

Lemma create_and_respond_trace client args data t :
  (create_and_respond client args data t).2 = t ++ [EvFieldsCreate (itemTypeId args) data].
Proof. unfold create_and_respond, bind, call, lift, ret. branches. Qed.

(** Once the checks pass and the client is built, the handler is the
    guarded call. *)
Lemma createFieldHandler_dispatch args pa client t :
  validateAndProcess args t = (Return pa, t) ->
  getDefaultClient (apiToken args) (environment args) = Return client ->
  createFieldHandler args t =
    try_catch (create_and_respond client args (fieldData args pa))
              (rewrite_upstream_error args)
              (t ++ [EvGetClient (apiToken args) (environment args)]).
Proof.
  intros Hv Hc. unfold createFieldHandler, bind at 1. rewrite Hv.
  unfold bind, call. by rewrite Hc.
Qed.

(** The guarded call is one call to [client.fields.create], whatever comes
    of it. *)
Lemma dispatch_trace client args data t :
  (try_catch (create_and_respond client args data) (rewrite_upstream_error args) t).2 =
  t ++ [EvFieldsCreate (itemTypeId args) data].
Proof.
  unfold try_catch.
  pose proof (create_and_respond_trace client args data t) as Ht.
  destruct (create_and_respond client args data t) as [[v|e] t']; simpl in *; [done|].
  by rewrite rewrite_upstream_error_silent.
Qed.

(** No check concerns a colour field. *)
Lemma validate_color args t :
  field_type args = "color" ->
  validateAndProcess args t =
    (Return (processAppearance "color" (appearance args)), t).
Proof.
  intros Hft. unfold validateAndProcess, check_enum_options.
  rewrite Hft. destruct (has_required (validators args)).
  all: by destruct (appearance args) as [a|].
Qed.

(** Nor a location field; its old editor name is replaced. *)
Lemma validate_lat_lon args t a :
  field_type args = "lat_lon" ->
  appearance args = Some a ->
  editor a = "lat_lon_editor" ->
  validateAndProcess args t =
    (Return (Some {| editor := "map"; parameters := parameters a;
                     addons := Some (default [] (addons a)) |}), t).
Proof.
  intros Hft Ha He. unfold validateAndProcess, check_enum_options, processAppearance.
  rewrite Hft, Ha. destruct a as [ed ps [ads|]]; simpl in He; subst ed.
  all: by destruct (has_required (validators args)).
Qed.

(** C4, as amended.  An upstream failure of [client.fields.create] whose
    extracted text contains [item_item_type], wherever it stands in the
    text, and none of the three signatures tested before it ([addons],
    [rich_text_blocks], [start_collapsed]), is rethrown as the error saying
    that the item type IDs provided in 'item_item_type' are invalid or
    inaccessible. *)
Theorem item_item_type_rewritten args pa client e t :
  validateAndProcess args t = (Return pa, t) ->
  getDefaultClient (apiToken args) (environment args) = Return client ->
  fields_create client (itemTypeId args) (fieldData args pa) = Throw e ->
  (exists l r, extractDetailedErrorInfo e = l +:+ "item_item_type" +:+ r) ->
  includes (extractDetailedErrorInfo e) "addons" = false ->
  includes (extractDetailedErrorInfo e) "rich_text_blocks" = false ->
  includes (extractDetailedErrorInfo e) "start_collapsed" = false ->
  createFieldHandler args t =
    (Throw (JsError Msg.item_item_type_invalid),
     t ++ [EvGetClient (apiToken args) (environment args);
           EvFieldsCreate (itemTypeId args) (fieldData args pa)]).
Proof.
  intros Hv Hc He Hin H1 H2 H3. apply includes_spec in Hin.
  rewrite (createFieldHandler_dispatch _ _ _ _ Hv Hc).
  unfold try_catch, create_and_respond, bind at 1, call. rewrite He.
  unfold rewrite_upstream_error, bind, throw_if. rewrite H1, H2, H3, Hin.
  by rewrite <- app_assoc.
Qed.

(** C5.  For a field of kind [color], whenever the client can be built, the
    handler calls [client.fields.create] once, with an appearance whose
    editor is [color_picker], whose [enable_alpha] parameter is the caller's
    when [appearance.parameters] has one and [false] otherwise, and whose
    addons are a list. *)
Theorem color_field_appearance args client t :
  field_type args = "color" ->
  getDefaultClient (apiToken args) (environment args) = Return client ->
  exists data ps ads,
    (createFieldHandler args t).2 =
      t ++ [EvGetClient (apiToken args) (environment args);
            EvFieldsCreate (itemTypeId args) data] /\
    fd_appearance data =
      {| editor := "color_picker"; parameters := Some ps; addons := Some ads |} /\
    ps !! "enable_alpha" =
      Some (default (JBool false)
              (default ∅ (appearance args ≫= parameters) !! "enable_alpha")).
Proof.
  intros Hft Hc.
  rewrite (createFieldHandler_dispatch _ _ _ _ (validate_color _ _ Hft) Hc).
  rewrite dispatch_trace, <- app_assoc. simpl.
  eexists _, _, _. split; [reflexivity|]. split; [reflexivity|].
  rewrite lookup_union.
  assert (parameters_or_empty (correct_lat_lon "color" (ensure_addons (appearance args))) =
          default ∅ (appearance args ≫= parameters)) as ->.
  { destruct (appearance args) as [a|]; [|done]. simpl. by destruct (addons a). }
  destruct (_ !! "enable_alpha") as [v|]; [done|].
  by rewrite lookup_singleton_eq.
Qed.

(** C6.  For a field of kind [lat_lon] whose appearance names the editor
    [lat_lon_editor], whenever the client can be built, the handler calls
    [client.fields.create] once, with an appearance whose editor is [map];
    the parameters are the caller's. *)
Theorem lat_lon_editor_corrected args a client t :
  field_type args = "lat_lon" ->
  appearance args = Some a ->
  editor a = "lat_lon_editor" ->
  getDefaultClient (apiToken args) (environment args) = Return client ->
  exists data,
    (createFieldHandler args t).2 =
      t ++ [EvGetClient (apiToken args) (environment args);
            EvFieldsCreate (itemTypeId args) data] /\
    editor (fd_appearance data) = "map" /\
    parameters (fd_appearance data) = parameters a.
Proof.
  intros Hft Ha He Hc.
  rewrite (createFieldHandler_dispatch _ _ _ _ (validate_lat_lon _ _ _ Hft Ha He) Hc).
  rewrite dispatch_trace, <- app_assoc. simpl. by eexists.
Qed.


(** C9.  For a field of kind [link] (resp. [links]) whose validators have an
    [item_item_type] (resp. [items_item_type]) entry whose [item_types] is
    missing, not an array, or an empty array, the handler throws before any
    call is made.  The message asks for [item_types]; when the entry is a
    truthy value, as the handler tests it, it is the message requiring an
    'item_types' array with at least one valid item type ID. *)
Theorem link_item_types_required args kind key vs v t :
  (kind = "link" /\ key = "item_item_type") \/
  (kind = "links" /\ key = "items_item_type") ->
  field_type args = kind ->
  validators args = Some vs ->
  vs !! key = Some v ->
  (forall ids, opt_member v "item_types" = JArr ids -> ids = []) ->
  exists msg,
    createFieldHandler args t = (Throw (JsError msg), t) /\
    includes msg "item_types" = true /\
    (truthy v = true ->
     msg = "The '" +:+ key +:+
           "' validator must include an 'item_types' array with at least one valid item type ID.").
Proof.
  intros Hk Hft Hvs Hv Hids.
  assert (lacks (validators args) key = negb (truthy v)) as Hl.
  { rewrite Hvs. unfold lacks, prop. by rewrite Hv. }
  assert (truthy v = true -> item_types_unusable (validators args) key = true) as Hu.
  { intros Ht. unfold item_types_unusable, validator, prop. rewrite Hvs, Hv. simpl.
    rewrite Ht. simpl. destruct (opt_member v "item_types") eqn:E; try done.
    by rewrite (Hids _ eq_refl). }
  unfold createFieldHandler, validateAndProcess, check_enum_options.
  destruct Hk as [[-> ->]|[-> ->]]; rewrite Hft, Hl.
  all: destruct (truthy v) eqn:Ht; [rewrite (Hu eq_refl)|].
  all: destruct (appearance args) as [a|].
  all: eexists; (split; [reflexivity|]); (split; [by vm_compute|]); done.
Qed.

End FieldCreation.

(** ** Record duplication *)

Section Duplication.
Context {B : Backend}.

(** C8.  When the client returns a record, the handler calls it once and
    responds with [createResponse] of the serialised payload.  With
    [returnOnlyConfirmation] true the payload is the two-member object
    [{ success: true, message }], whose message contains the original
    identifier and the new record's, and which holds nothing else of the
    record; with the flag false or absent the payload is the record. *)
Theorem duplicate_response args client item t :
  getDefaultClient (dup_apiToken args) (dup_environment args) = Return client ->
  items_duplicate client (dup_itemId args) = Return item ->
  truthy item = true ->
  let newId := to_string (member item "id") in
  let message := duplicate_confirmation (dup_itemId args) newId in
  let payload :=
    if default false (returnOnlyConfirmation args)
    then JObj {[ "success" := JBool true; "message" := JStr message ]}
    else item in
  duplicateRecordHandler args t =
    (match JSON_stringify payload with
     | Return text => Return (createResponse text)
     | Throw e => Throw e
     end,
     t ++ [EvGetClient (dup_apiToken args) (dup_environment args);
           EvItemsDuplicate (dup_itemId args)]) /\
  includes message (dup_itemId args) = true /\
  includes message newId = true.
Proof.
  intros Hc Hd Ht newId message payload. split; [|split].
  - unfold duplicateRecordHandler, bind, call, throw_if, lift, ret.
    rewrite Hc, Hd, Ht. simpl. subst payload message newId.
    rewrite <- app_assoc. simpl.
    destruct (default false (returnOnlyConfirmation args));
      by destruct (JSON_stringify _).
  - apply includes_mid.
  - do 3 apply includes_append_r. apply includes_here.
Qed.

(** C10.  When the client's duplicate call returns [null] or [undefined],
    the handler throws an error whose message contains the original
    identifier; no response is returned. *)
Theorem duplicate_absent_result_throws args client v t :
  getDefaultClient (dup_apiToken args) (dup_environment args) = Return client ->
  items_duplicate client (dup_itemId args) = Return v ->
  v = JNull \/ v = JUndefined ->
  duplicateRecordHandler args t =
    (Throw (JsError (duplicate_failed (dup_itemId args))),
     t ++ [EvGetClient (dup_apiToken args) (dup_environment args);
           EvItemsDuplicate (dup_itemId args)]) /\
  includes (duplicate_failed (dup_itemId args)) (dup_itemId args) = true.
Proof.
  intros Hc Hd Hv. split; [|apply includes_mid].
  unfold duplicateRecordHandler, bind, call, throw_if, lift, ret.
  rewrite Hc, Hd. destruct Hv as [->| ->]; simpl; by rewrite <- app_assoc.
Qed.

End Duplication.

(** ** The project router *)

Section ProjectRouter.
Import Router.
Context {B : Backend} {D : ProjectDomain}.





Lemma on_validation_error_silent action schema e t :
  (on_validation_error action schema e t).2 = t.
Proof.
  unfold on_validation_error, bind, lift, ret.
  destruct e; try done. by destruct (JSON_stringify _).
Qed.


(** C2.  For every action, a call with no [args] or with an [args] of zero
    keys returns the guidance that points to the [datocms_parameters] tool;
    the trace is unchanged: neither the schema's [parse] nor a handler is
    called. *)
Theorem empty_args_get_guidance action args t :
  size (default ∅ args) = 0 ->
  route action args t =
    (Return (createErrorResponse (JStr (parameters_required action))), t) /\
  includes (parameters_required action) "datocms_parameters tool" = true.
Proof.
  intros Hs. split.
  - unfold route, try_catch. by rewrite Hs.
  - unfold parameters_required.
    do 2 apply includes_append_r.
    apply includes_append_l. by vm_compute.
Qed.


End ProjectRouter.

(** * The units on examples *)

Section Runs.
Import Example Router.

(** C2 on an example: [get_info] called without arguments. *)
Lemma empty_args_get_guidance_run :
  route (B := working) (D := accepting) "get_info" None [] =
    (Return (text_content (JStr (parameters_required "get_info"))), []) /\
  includes (parameters_required "get_info") "datocms_parameters tool" = true.
Proof.
  exact (empty_args_get_guidance (B := working) (D := accepting)
           "get_info" None [] eq_refl).
Defined.


(** C4 on an example: the client rejects the model ids of a link field. *)
Lemma item_item_type_rewritten_run :
  createFieldHandler (B := failing unknown_model) valid_link_field [] =
    (Throw (JsError Msg.item_item_type_invalid),
     [EvGetClient (Some "token") None;
      EvFieldsCreate "model1" (fieldData valid_link_field None)]).
Proof.
  refine (item_item_type_rewritten (B := failing unknown_model)
            valid_link_field None tt unknown_model []
            eq_refl eq_refl eq_refl _ eq_refl eq_refl eq_refl).
  apply includes_spec. by vm_compute.
Defined.

(** C4 as stated fails: this upstream failure contains [item_item_type],
    and also [addons], which the handler tests first; what is thrown is the
    message about addons, not the one about the item type IDs. *)
Lemma item_item_type_rewrite_shadowed :
  includes (extractDetailedErrorInfo (Backend := failing unknown_model_and_addons)
              unknown_model_and_addons) "item_item_type" = true /\
  createFieldHandler (B := failing unknown_model_and_addons) valid_link_field [] =
    (Throw (JsError Msg.addons_required),
     [EvGetClient (Some "token") None;
      EvFieldsCreate "model1" (fieldData valid_link_field None)]) /\
  Msg.addons_required <> Msg.item_item_type_invalid.
Proof.
  split; [by vm_compute|]. split; [by vm_compute|].
  intros Heq. vm_compute in Heq. discriminate Heq.
Qed.


(** C5 on an example: the caller asks for an alpha channel and gives no
    addons. *)
Lemma color_field_appearance_run :
  exists data ps ads,
    (createFieldHandler (B := working) color_field []).2 =
      [EvGetClient (Some "token") None; EvFieldsCreate "model1" data] /\
    fd_appearance data =
      {| editor := "color_picker"; parameters := Some ps; addons := Some ads |} /\
    ps !! "enable_alpha" = Some (JBool true).
Proof.
  exact (color_field_appearance (B := working) color_field tt [] eq_refl eq_refl).
Defined.

(** C6 on an example. *)
Lemma lat_lon_editor_corrected_run :
  exists data,
    (createFieldHandler (B := working) location_field []).2 =
      [EvGetClient (Some "token") None; EvFieldsCreate "model1" data] /\
    editor (fd_appearance data) = "map" /\
    parameters (fd_appearance data) = None.
Proof.
  exact (lat_lon_editor_corrected (B := working) location_field
           {| editor := "lat_lon_editor"; parameters := None; addons := None |}
           tt [] eq_refl eq_refl eq_refl eq_refl).
Defined.


(** C8 on an example: a confirmation only. *)
Lemma duplicate_response_run :
  duplicateRecordHandler (B := working) (duplicate_args (Some true)) [] =
    (Return (text_content (JStr "[object Object]")),
     [EvGetClient (Some "token") None; EvItemsDuplicate "rec1"]) /\
  includes (duplicate_confirmation "rec1" "rec2") "rec1" = true /\
  includes (duplicate_confirmation "rec1" "rec2") "rec2" = true.
Proof.
  exact (duplicate_response (B := working) (duplicate_args (Some true)) tt
           duplicated_item [] eq_refl eq_refl eq_refl).
Defined.

(** C9 on an example: a link field whose list of models is empty. *)
Lemma link_item_types_required_run :
  exists msg,
    createFieldHandler (B := working) link_field [] = (Throw (JsError msg), []) /\
    includes msg "item_types" = true /\
    (truthy (JObj {[ "item_types" := JArr [] ]}) = true ->
     msg = Msg.item_item_type_empty).
Proof.
  refine (link_item_types_required (B := working) link_field
            "link" "item_item_type"
            {[ "item_item_type" := JObj {[ "item_types" := JArr [] ]} ]}
            (JObj {[ "item_types" := JArr [] ]}) []
            (or_introl (conj eq_refl eq_refl)) eq_refl eq_refl eq_refl _).
  intros ids Hids. vm_compute in Hids. by inversion Hids.
Defined.

(** C10 on an example: the client returns [null]. *)
Lemma duplicate_absent_result_throws_run :
  duplicateRecordHandler (B := forgetful) (duplicate_args None) [] =
    (Throw (JsError (duplicate_failed "rec1")),
     [EvGetClient (Some "token") None; EvItemsDuplicate "rec1"]) /\
  includes (duplicate_failed "rec1") "rec1" = true.
Proof.
  exact (duplicate_absent_result_throws (B := forgetful) (duplicate_args None) tt
           JNull [] eq_refl eq_refl (or_introl eq_refl)).
Defined.

End Runs.

(** * Further properties *)

(** ** Field creation *)

Section MoreFieldCreation.
Context {B : Backend}.

Lemma validateAndProcess_returns args t pa t' :
  validateAndProcess args t = (Return pa, t') ->
  t' = t /\
  pa = processAppearance (field_type args)
         (default_heading (field_type args) (appearance args)).
Proof.
  unfold validateAndProcess, bind, throw_if, ret, throw, lift.
  branches; by intros [= <- <-].
Qed.

Lemma processAppearance_addons ft ap a :
  processAppearance ft ap = Some a -> exists ads, addons a = Some ads.
Proof.
  unfold processAppearance, default_structured_text, force_color, correct_lat_lon,
    ensure_addons.
  branches; intros [= <-]; simpl; eauto.
Qed.

(** X1.  Whatever the arguments, the handler makes no call, or builds the
    client and stops, or builds the client and calls [client.fields.create]
    once.  What it sends then carries the caller's [field_type], the
    caller's validators (or [{}]), every other property unchanged, and an
    appearance whose addons are a list. *)
Theorem dispatch_carries_callers_data args t :
  (createFieldHandler args t).2 = t \/
  (createFieldHandler args t).2 = t ++ [EvGetClient (apiToken args) (environment args)] \/
  exists data ads,
    (createFieldHandler args t).2 =
      t ++ [EvGetClient (apiToken args) (environment args);
            EvFieldsCreate (itemTypeId args) data] /\
    fd_rest data = restFieldData args /\
    fd_field_type data = field_type args /\
    fd_validators data = default ∅ (validators args) /\
    addons (fd_appearance data) = Some ads.
Proof.
  destruct (validateAndProcess args t) as [[pa|e] t'] eqn:Hv.
  - apply validateAndProcess_returns in Hv as Hv'. destruct Hv' as [-> Hpa].
    destruct (getDefaultClient (apiToken args) (environment args)) as [client|e] eqn:Hc.
    + right; right.
      rewrite (createFieldHandler_dispatch _ _ _ _ Hv Hc), dispatch_trace, <- app_assoc.
      destruct pa as [a|] eqn:Ea.
      * symmetry in Hpa. apply processAppearance_addons in Hpa as [ads Hads].
        by exists (fieldData args (Some a)), ads.
      * by exists (fieldData args None), [].
    + right; left. unfold createFieldHandler, bind, call. by rewrite Hv, Hc.
  - left. pose proof (validateAndProcess_silent args t) as Hs. rewrite Hv in Hs.
    simpl in Hs. subst t'. unfold createFieldHandler, bind. by rewrite Hv.
Qed.

Lemma handler_after_create args pa client t r :
  validateAndProcess args t = (Return pa, t) ->
  getDefaultClient (apiToken args) (environment args) = Return client ->
  fields_create client (itemTypeId args) (fieldData args pa) = r ->
  createFieldHandler args t =
    match r with
    | Return field =>
        match get field "label" with
        | Return _ =>
            (Return (createResponse
               (JObj {[ "success" := JBool true;
                        "data" := field;
                        "message" := JStr (Msg.field_created
                                             (to_string (member field "label"))
                                             (to_string (member field "id"))) ]})),
             t ++ [EvGetClient (apiToken args) (environment args);
                   EvFieldsCreate (itemTypeId args) (fieldData args pa)])
        | Throw e =>
            rewrite_upstream_error args e
              (t ++ [EvGetClient (apiToken args) (environment args);
                     EvFieldsCreate (itemTypeId args) (fieldData args pa)])
        end
    | Throw e =>
        rewrite_upstream_error args e
          (t ++ [EvGetClient (apiToken args) (environment args);
                 EvFieldsCreate (itemTypeId args) (fieldData args pa)])
    end.
Proof.
  intros Hv Hc Hr. rewrite (createFieldHandler_dispatch _ _ _ _ Hv Hc).
  unfold try_catch, create_and_respond, bind, call, lift, ret. rewrite Hr.
  rewrite <- app_assoc. simpl.
  destruct r as [field|e]; [|done]. unfold get. by destruct (is_nullish field).
Qed.

Lemma handler_trace_after_validate args pa client t :
  validateAndProcess args t = (Return pa, t) ->
  getDefaultClient (apiToken args) (environment args) = Return client ->
  (createFieldHandler args t).2 =
    t ++ [EvGetClient (apiToken args) (environment args);
          EvFieldsCreate (itemTypeId args) (fieldData args pa)].
Proof.
  intros Hv Hc.
  by rewrite (createFieldHandler_dispatch _ _ _ _ Hv Hc), dispatch_trace, <- app_assoc.
Qed.

Lemma handler_proceeds args pa t :
  validateAndProcess args t = (Return pa, t) ->
  exists rest,
    (createFieldHandler args t).2 =
      t ++ EvGetClient (apiToken args) (environment args) :: rest.
Proof.
  intros Hv.
  destruct (getDefaultClient (apiToken args) (environment args)) as [client|e] eqn:Hc.
  - rewrite (handler_trace_after_validate _ _ _ _ Hv Hc). by eexists.
  - unfold createFieldHandler, bind, call. rewrite Hv, Hc. by eexists.
Qed.

(** X11.  When [client.fields.create] returns a field, the handler returns
    [createResponse] of [{ success: true, data, message }], where [data] is
    the field and the message names its label and its id. *)
Theorem created_field_reported args pa client field t :
  validateAndProcess args t = (Return pa, t) ->
  getDefaultClient (apiToken args) (environment args) = Return client ->
  fields_create client (itemTypeId args) (fieldData args pa) = Return field ->
  is_nullish field = false ->
  createFieldHandler args t =
    (Return (createResponse
       (JObj {[ "success" := JBool true;
                "data" := field;
                "message" :=
                  JStr ("Field '" +:+ to_string (member field "label") +:+
                        "' created successfully with ID: " +:+
                        to_string (member field "id")) ]})),
     t ++ [EvGetClient (apiToken args) (environment args);
           EvFieldsCreate (itemTypeId args) (fieldData args pa)]).
Proof.
  intros Hv Hc Hr Hn. rewrite (handler_after_create _ _ _ _ _ Hv Hc Hr).
  unfold get. by rewrite Hn.
Qed.

(** X12.  When [client.fields.create] throws, or returns [null] or
    [undefined], what the handler throws is an [Error] with a message of its
    own: the upstream value itself never leaves the handler. *)
Theorem upstream_failure_always_rewrapped args pa client t :
  validateAndProcess args t = (Return pa, t) ->
  getDefaultClient (apiToken args) (environment args) = Return client ->
  (forall field,
     fields_create client (itemTypeId args) (fieldData args pa) = Return field ->
     is_nullish field = true) ->
  exists msg,
    createFieldHandler args t =
      (Throw (JsError msg),
       t ++ [EvGetClient (apiToken args) (environment args);
             EvFieldsCreate (itemTypeId args) (fieldData args pa)]).
Proof.
  intros Hv Hc Hf. rewrite (handler_after_create _ _ _ _ _ Hv Hc eq_refl).
  destruct (fields_create _ _ _) as [field|e].
  - unfold get. rewrite (Hf field eq_refl). apply rewrite_upstream_error_throws.
  - apply rewrite_upstream_error_throws.
Qed.

(** X13.  A failure of [getDefaultClient] leaves the handler as it was
    thrown, since the call stands before the [try]; [client.fields.create]
    is not called. *)
Theorem client_build_failure_propagates args pa e t :
  validateAndProcess args t = (Return pa, t) ->
  getDefaultClient (apiToken args) (environment args) = Throw e ->
  createFieldHandler args t =
    (Throw e, t ++ [EvGetClient (apiToken args) (environment args)]).
Proof.
  intros Hv Hc. unfold createFieldHandler, bind, call. by rewrite Hv, Hc.
Qed.

(** X14.  An upstream failure whose text contains [addons], wherever it
    stands and whatever else the text holds, is rethrown as the error about
    the required 'addons' field. *)
Theorem addons_signature_first args pa client e t :
  validateAndProcess args t = (Return pa, t) ->
  getDefaultClient (apiToken args) (environment args) = Return client ->
  fields_create client (itemTypeId args) (fieldData args pa) = Throw e ->
  (exists l r, extractDetailedErrorInfo e = l +:+ "addons" +:+ r) ->
  createFieldHandler args t =
    (Throw (JsError Msg.addons_required),
     t ++ [EvGetClient (apiToken args) (environment args);
           EvFieldsCreate (itemTypeId args) (fieldData args pa)]).
Proof.
  intros Hv Hc He Hin. apply includes_spec in Hin.
  rewrite (handler_after_create _ _ _ _ _ Hv Hc He).
  unfold rewrite_upstream_error, bind, throw_if. by rewrite Hin.
Qed.

(** X15.  For a kind other than [color], an upstream failure whose text
    holds none of the eight signatures is rethrown as "Error creating
    field: " followed by the text, which is therefore kept whole. *)
Theorem unmatched_failure_passes_through args pa client e t :
  validateAndProcess args t = (Return pa, t) ->
  getDefaultClient (apiToken args) (environment args) = Return client ->
  fields_create client (itemTypeId args) (fieldData args pa) = Throw e ->
  field_type args <> "color" ->
  Forall (fun signature => includes (extractDetailedErrorInfo e) signature = false)
    ["addons"; "rich_text_blocks"; "start_collapsed"; "item_item_type";
     "items_item_type"; "appearance.editor"; "INVALID_FORMAT"; "INVALID_FIELD"] ->
  createFieldHandler args t =
    (Throw (JsError ("Error creating field: " +:+ extractDetailedErrorInfo e)),
     t ++ [EvGetClient (apiToken args) (environment args);
           EvFieldsCreate (itemTypeId args) (fieldData args pa)]) /\
  includes ("Error creating field: " +:+ extractDetailedErrorInfo e)
           (extractDetailedErrorInfo e) = true.
Proof.
  intros Hv Hc He Hft Hsig. split; [|apply includes_append_r, includes_refl].
  rewrite (handler_after_create _ _ _ _ _ Hv Hc He).
  apply Forall_cons in Hsig as [H1 Hsig]. apply Forall_cons in Hsig as [H2 Hsig].
  apply Forall_cons in Hsig as [H3 Hsig]. apply Forall_cons in Hsig as [H4 Hsig].
  apply Forall_cons in Hsig as [H5 Hsig]. apply Forall_cons in Hsig as [H6 Hsig].
  apply Forall_cons in Hsig as [H7 Hsig]. apply Forall_cons in Hsig as [H8 _].
  apply String.eqb_neq in Hft.
  unfold rewrite_upstream_error, bind, throw_if.
  by rewrite H1, H2, H3, H4, H5, H6, H7, H8, Hft.
Qed.

(** X16.  For a [color] field, an upstream failure whose text holds none
    of the five signatures tested before the kind is rethrown as the fixed
    error about the colour editor, whatever the text says. *)
Theorem color_failure_hides_upstream_text args client e t :
  field_type args = "color" ->
  getDefaultClient (apiToken args) (environment args) = Return client ->
  fields_create client (itemTypeId args)
    (fieldData args (processAppearance "color" (appearance args))) = Throw e ->
  Forall (fun signature => includes (extractDetailedErrorInfo e) signature = false)
    ["addons"; "rich_text_blocks"; "start_collapsed"; "item_item_type";
     "items_item_type"] ->
  createFieldHandler args t =
    (Throw (JsError Msg.color_field_error),
     t ++ [EvGetClient (apiToken args) (environment args);
           EvFieldsCreate (itemTypeId args)
             (fieldData args (processAppearance "color" (appearance args)))]).
Proof.
  intros Hft Hc He Hsig.
  rewrite (handler_after_create _ _ _ _ _ (validate_color _ _ Hft) Hc He).
  apply Forall_cons in Hsig as [H1 Hsig]. apply Forall_cons in Hsig as [H2 Hsig].
  apply Forall_cons in Hsig as [H3 Hsig]. apply Forall_cons in Hsig as [H4 Hsig].
  apply Forall_cons in Hsig as [H5 _].
  unfold rewrite_upstream_error, bind, throw_if.
  by rewrite H1, H2, H3, H4, H5, Hft.
Qed.


(** X2.  A field of kind [structured_text], [single_block], [link],
    [links] or [slug] whose validators are absent, or lack the kind's
    companion validator, or hold a falsy value for it, is refused before any
    call is made, with the message that names that validator. *)
Theorem companion_validator_required args kind key msg t :
  (kind, key, msg) ∈
    [("structured_text", "structured_text_blocks", Msg.structured_text_blocks_missing);
     ("single_block", "single_block_blocks", Msg.single_block_blocks_missing);
     ("link", "item_item_type", Msg.item_item_type_missing);
     ("links", "items_item_type", Msg.items_item_type_missing);
     ("slug", "slug_title_field", Msg.slug_title_field_missing)] ->
  field_type args = kind ->
  lacks (validators args) key = true ->
  createFieldHandler args t = (Throw (JsError msg), t) /\
  includes msg ("'" +:+ key +:+ "'") = true.
Proof.
  intros Hin Hft Hl.
  unfold createFieldHandler, validateAndProcess, check_enum_options.
  repeat (apply elem_of_cons in Hin as [[= -> -> ->]|Hin]);
    [..|by apply elem_of_nil in Hin].
  all: rewrite Hft, ?Hl.
  all: split; [|by vm_compute].
  all: try (destruct (appearance args); reflexivity).
  destruct (has_required (validators args)); by destruct (appearance args).
Qed.

(** X3.  A [string] field whose editor is [string_radio_group] or
    [string_select] and whose validators have no [enum] is refused before
    any call is made; the message names the editor. *)
Theorem choice_editor_requires_enum args a t :
  field_type args = "string" ->
  appearance args = Some a ->
  editor a = "string_radio_group" \/ editor a = "string_select" ->
  lacks (validators args) "enum" = true ->
  createFieldHandler args t =
    (Throw (JsError (Msg.enum_missing (editor a))), t) /\
  includes (Msg.enum_missing (editor a)) (editor a) = true.
Proof.
  intros Hft Ha He Hl. split; [|apply includes_mid].
  unfold createFieldHandler, validateAndProcess.
  rewrite Hft, Ha, Hl. destruct a as [ed ps ads]; simpl in *.
  by destruct He as [-> | ->].
Qed.

(** X5.  A [gallery], [links] or [rich_text] field whose validators have a
    [required] member other than [undefined] never reaches the client: the
    handler throws before any call.  The message is the one about the
    unsupported 'required' validator once the kind's own validator check
    passes (always, for [gallery]). *)
Theorem required_flag_rejected args vs v t :
  field_type args = "gallery" \/ field_type args = "links" \/
  field_type args = "rich_text" ->
  validators args = Some vs ->
  vs !! "required" = Some v ->
  v <> JUndefined ->
  exists msg,
    createFieldHandler args t = (Throw (JsError msg), t) /\
    (field_type args = "gallery" \/
     field_type args = "rich_text" /\ truthy (prop vs "rich_text_blocks") = true \/
     field_type args = "links" /\
       item_types_unusable (Some vs) "items_item_type" = false /\
       truthy (prop vs "items_item_type") = true ->
     msg = Msg.required_unsupported).
Proof.
  intros Hft Hvs Hr Hv.
  assert (has_required (validators args) = true) as Hh.
  { rewrite Hvs. unfold has_required, prop. rewrite Hr. simpl. by destruct v. }
  unfold createFieldHandler, validateAndProcess, check_enum_options.
  rewrite Hh, Hvs. unfold lacks. destruct Hft as [-> | [-> | ->]].
  - destruct (appearance args); eexists; (split; [reflexivity|done]).
  - simpl. destruct (truthy (prop vs "items_item_type")) eqn:Ht; simpl.
    + destruct (item_types_unusable (Some vs) "items_item_type") eqn:Hu.
      * destruct (appearance args); eexists; (split; [reflexivity|]).
        all: intros [|[[? _]|(_ & ? & _)]]; done.
      * destruct (appearance args); eexists; (split; [reflexivity|done]).
    + destruct (appearance args); eexists; (split; [reflexivity|]).
      all: intros [|[[? _]|(_ & _ & ?)]]; done.
  - simpl. destruct (truthy (prop vs "rich_text_blocks")) eqn:Ht; simpl.
    + destruct (appearance args); eexists; (split; [reflexivity|done]).
    + eexists; (split; [reflexivity|]).
      intros [|[[_ ?]|(? & _)]]; done.
Qed.

(** The comparison of the option values with the enum values, on strings. *)
Lemma mismatch_strings (ovs evs : list string) :
  mismatch (JStr <$> ovs) (JStr <$> evs) = false <-> ovs = evs.
Proof.
  unfold mismatch. rewrite !length_fmap.
  revert evs. induction ovs as [|o ovs IH]; intros evs.
  - destruct evs; simpl; split; done.
  - destruct evs as [|e evs]; [simpl; split; done|].
    specialize (IH evs). simpl in *.
    destruct (decide (length ovs = length evs)) as [Hlen|Hlen].
    + apply Nat.eqb_eq in Hlen as Hlen'. rewrite Hlen' in *. simpl in *.
      destruct (String.eqb o e) eqn:Hoe; simpl.
      * apply String.eqb_eq in Hoe as ->. rewrite IH. split; congruence.
      * apply String.eqb_neq in Hoe. split; [done|congruence].
    + apply Nat.eqb_neq in Hlen as Hlen'. rewrite Hlen'. simpl.
      split; [done|]. intros [= _ ->]. done.
Qed.

(** X4.  For a [string] field with a radio group or a select, an [enum]
    validator with string values and radios with string values: when the
    two lists differ (in length, order or content) the handler throws the
    mismatch error before any call is made; when they are equal it goes on to
    build the client. *)
Theorem enum_values_must_match_options args a vs en ps options ovs evs t :
  field_type args = "string" ->
  appearance args = Some a ->
  editor a = "string_radio_group" \/ editor a = "string_select" ->
  validators args = Some vs ->
  vs !! "enum" = Some (JObj en) ->
  en !! "values" = Some (JArr (JStr <$> evs)) ->
  parameters a = Some ps ->
  ps !! "radios" = Some (JArr (JObj <$> options)) ->
  (fun o : JsObj => prop o "value") <$> options = JStr <$> ovs ->
  (ovs <> evs ->
   createFieldHandler args t = (Throw (JsError Msg.enum_mismatch), t)) /\
  (ovs = evs ->
   exists rest,
     (createFieldHandler args t).2 =
       t ++ EvGetClient (apiToken args) (environment args) :: rest).
Proof.
  intros Hft Ha He Hvs Hen Hvals Hps Hrad Hopts.
  assert (optionValues a = Return (JStr <$> ovs)) as Hov.
  { unfold optionValues. rewrite Hps. simpl. unfold prop at 1. rewrite Hrad. simpl.
    rewrite <- Hopts. clear. induction options as [|o os IH]; [done|].
    rewrite !fmap_cons. cbn [map_result get is_nullish member]. by rewrite IH. }
  assert (check_enum_options "string" (Some a) (Some vs) =
          if mismatch (JStr <$> ovs) (JStr <$> evs)
          then Throw (JsError Msg.enum_mismatch) else Return tt) as Hchk.
  { unfold check_enum_options, choice_appearance, validator, prop.
    rewrite Hen. simpl.
    assert ((editor a =? "string_radio_group")%string ||
            (editor a =? "string_select")%string = true) as ->
      by (by destruct He as [-> | ->]).
    unfold opt_member, member, prop. simpl. by rewrite Hvals, Hov. }
  assert (default_heading "string" (Some a) = Some a) as Hdh.
  { unfold default_heading. simpl. by destruct He as [-> | ->]. }
  assert (lacks (Some vs) "enum" = false) as Hl.
  { unfold lacks, prop. by rewrite Hen. }
  assert (choice_appearance "string" (Some a) = Some a) as Hca.
  { unfold choice_appearance. simpl. by destruct He as [-> | ->]. }
  split; intros Hcmp.
  - apply (not_iff_compat (mismatch_strings ovs evs)) in Hcmp.
    apply not_false_is_true in Hcmp.
    unfold createFieldHandler, validateAndProcess.
    rewrite Hft, Ha, Hvs, Hdh, Hca, Hl, Hchk, Hcmp. reflexivity.
  - apply mismatch_strings in Hcmp.
    apply (handler_proceeds _ (ensure_addons (Some a))).
    unfold validateAndProcess.
    rewrite Hft, Ha, Hvs, Hdh, Hca, Hl, Hchk, Hcmp.
    unfold processAppearance, bind, throw_if, lift, ret. simpl.
    rewrite andb_false_r. simpl. by destruct (addons a).
Qed.


Lemma validate_single_line args a t :
  field_type args = "string" ->
  appearance args = Some a ->
  editor a = "single_line" ->
  validateAndProcess args t =
    (Return (ensure_addons (default_heading "string" (Some a))), t).
Proof.
  intros Hft Ha He. unfold validateAndProcess, check_enum_options, processAppearance.
  rewrite Hft, Ha. destruct a as [ed ps ads]; simpl in He; subst ed.
  destruct (has_required (validators args)); by destruct ads.
Qed.

(** X6.  For a [string] field with the [single_line] editor, what is sent
    keeps the editor, and its parameters are the caller's with [heading]
    set to [false] when the caller gave none (or [undefined]); every other
    parameter is the caller's. *)
Theorem single_line_heading_default args a client t :
  field_type args = "string" ->
  appearance args = Some a ->
  editor a = "single_line" ->
  getDefaultClient (apiToken args) (environment args) = Return client ->
  exists data ps,
    (createFieldHandler args t).2 =
      t ++ [EvGetClient (apiToken args) (environment args);
            EvFieldsCreate (itemTypeId args) data] /\
    editor (fd_appearance data) = "single_line" /\
    parameters (fd_appearance data) = Some ps /\
    ps !! "heading" =
      Some (if strict_eq (prop (default ∅ (parameters a)) "heading") JUndefined
            then JBool false
            else prop (default ∅ (parameters a)) "heading") /\
    forall k, k <> "heading" -> ps !! k = default ∅ (parameters a) !! k.
Proof.
  intros Hft Ha He Hc.
  rewrite (handler_trace_after_validate _ _ _ _ (validate_single_line _ _ _ Hft Ha He) Hc).
  destruct a as [ed ps ads]; simpl in He; subst ed. simpl.
  destruct ps as [ps|]; simpl.
  - destruct (strict_eq (prop ps "heading") JUndefined) eqn:Hs.
    + destruct ads; eexists _, _; (split; [reflexivity|]); simpl.
      all: split; [done|]; split; [done|]; split; [by rewrite lookup_insert_eq|].
      all: intros k Hk; by rewrite lookup_insert_ne.
    + destruct ads; eexists _, _; (split; [reflexivity|]); simpl.
      all: split; [done|]; split; [done|]; split; [|done].
      all: unfold prop in *; destruct (ps !! "heading"); done.
  - destruct ads; eexists _, _; (split; [reflexivity|]); simpl.
    all: split; [done|]; split; [done|]; split; [done|].
    all: intros k Hk; by rewrite lookup_singleton_ne.
Qed.

Lemma validate_structured_text args t :
  field_type args = "structured_text" ->
  lacks (validators args) "structured_text_blocks" = false ->
  validateAndProcess args t =
    (Return (processAppearance "structured_text" (appearance args)), t).
Proof.
  intros Hft Hl. unfold validateAndProcess, check_enum_options.
  rewrite Hft, Hl. destruct (has_required (validators args)).
  all: by destruct (appearance args) as [a|].
Qed.

(** X7.  For a [structured_text] field with its blocks validator, what is
    sent has the editor [structured_text], an addons list, and each of the
    three parameters [blocks_start_collapsed], [show_links_target_blank],
    [show_links_meta_editor] at the caller's value when given and at its
    default ([false], [true], [true]) otherwise. *)
Theorem structured_text_defaults args client t :
  field_type args = "structured_text" ->
  lacks (validators args) "structured_text_blocks" = false ->
  getDefaultClient (apiToken args) (environment args) = Return client ->
  exists data ps ads,
    (createFieldHandler args t).2 =
      t ++ [EvGetClient (apiToken args) (environment args);
            EvFieldsCreate (itemTypeId args) data] /\
    fd_appearance data =
      {| editor := "structured_text"; parameters := Some ps; addons := Some ads |} /\
    forall k dflt,
      (k, dflt) ∈ [("blocks_start_collapsed", false);
                   ("show_links_target_blank", true);
                   ("show_links_meta_editor", true)] ->
      ps !! k =
        Some (default (JBool dflt)
                (default ∅ (appearance args ≫= parameters) !! k)).
Proof.
  intros Hft Hl Hc.
  rewrite (handler_trace_after_validate _ _ _ _ (validate_structured_text _ _ Hft Hl) Hc).
  eexists _, _, _. split; [reflexivity|]. split; [reflexivity|].
  intros k dflt Hin. rewrite lookup_union.
  assert (parameters_or_empty
            (force_color "structured_text"
               (correct_lat_lon "structured_text" (ensure_addons (appearance args)))) =
          default ∅ (appearance args ≫= parameters)) as ->.
  { destruct (appearance args) as [a|]; [|done]. simpl. by destruct (addons a). }
  destruct (default ∅ (appearance args ≫= parameters) !! k) as [v|].
  { simpl. by destruct (_ !! k). }
  repeat (apply elem_of_cons in Hin as [[= -> ->]|Hin]); [done..|].
  by apply elem_of_nil in Hin.
Qed.

Lemma validate_any_lat_lon args t :
  field_type args = "lat_lon" ->
  validateAndProcess args t =
    (Return (correct_lat_lon "lat_lon" (ensure_addons (appearance args))), t).
Proof.
  intros Hft. unfold validateAndProcess, check_enum_options, processAppearance.
  rewrite Hft. destruct (has_required (validators args)).
  all: by destruct (appearance args) as [a|].
Qed.

(** X8.  For a [lat_lon] field the editor sent is never [lat_lon_editor]:
    it is [map] when the caller gave no appearance, and the caller's editor
    when that is another name. *)
Theorem lat_lon_never_old_editor args client t :
  field_type args = "lat_lon" ->
  getDefaultClient (apiToken args) (environment args) = Return client ->
  exists data,
    (createFieldHandler args t).2 =
      t ++ [EvGetClient (apiToken args) (environment args);
            EvFieldsCreate (itemTypeId args) data] /\
    editor (fd_appearance data) <> "lat_lon_editor" /\
    (appearance args = None -> editor (fd_appearance data) = "map") /\
    (forall a, appearance args = Some a -> editor a <> "lat_lon_editor" ->
               editor (fd_appearance data) = editor a).
Proof.
  intros Hft Hc.
  rewrite (handler_trace_after_validate _ _ _ _ (validate_any_lat_lon _ _ Hft) Hc).
  eexists. split; [reflexivity|].
  unfold fieldData. rewrite Hft.
  destruct (appearance args) as [[ed ps ads]|]; simpl.
  - destruct (String.eqb ed "lat_lon_editor") eqn:He.
    + apply String.eqb_eq in He as ->.
      destruct ads; simpl; (split; [done|]); (split; [done|]).
      all: by intros a [= <-].
    + apply String.eqb_neq in He.
      destruct ads; simpl; rewrite ?(proj2 (String.eqb_neq _ _) He); simpl.
      all: (split; [congruence|]); (split; [done|]); by intros a [= <-].
  - split; [by vm_compute|]. split; [by vm_compute|]. done.
Qed.

(** Every entry of [editorMap] is a non-empty string, and none is named
    like a member of [Object.prototype]. *)
Lemma editorMap_entries_truthy kind name :
  editorMap !! kind = Some name -> String.eqb name EmptyString = false.
Proof.
  intros Hk.
  assert (map_Forall (fun _ n => String.eqb n EmptyString = false) editorMap) as Hall.
  { apply map_Forall_to_list. vm_compute. repeat constructor. }
  exact (Hall kind name Hk).
Qed.

Lemma editorMap_no_prototype_name kind :
  kind ∈ objectPrototypeMembers -> editorMap !! kind = None.
Proof.
  assert (Forall (fun k => editorMap !! k = None) objectPrototypeMembers) as Hall.
  { repeat constructor. }
  rewrite Forall_forall in Hall. apply Hall.
Qed.

(** X9.  When the caller gives no appearance, for a kind other than
    [color] and [structured_text] that passes the checks, the appearance
    sent is [{ editor: getDefaultEditor(kind), parameters: {}, addons: [] }].
    Its editor is the entry of [editorMap] for a kind the map lists, the
    member inherited from [Object.prototype] for a kind named like one
    ([constructor], [toString], ...), and [default_editor] for every other
    kind. *)
Theorem absent_appearance_synthesized args pa client t :
  appearance args = None ->
  field_type args <> "color" ->
  field_type args <> "structured_text" ->
  validateAndProcess args t = (Return pa, t) ->
  getDefaultClient (apiToken args) (environment args) = Return client ->
  exists data,
    (createFieldHandler args t).2 =
      t ++ [EvGetClient (apiToken args) (environment args);
            EvFieldsCreate (itemTypeId args) data] /\
    fd_appearance data =
      {| editor := getDefaultEditor (field_type args);
         parameters := Some ∅;
         addons := Some [] |} /\
    (forall name, editorMap !! field_type args = Some name ->
       editor (fd_appearance data) = EditorName name) /\
    (field_type args ∈ objectPrototypeMembers ->
       editor (fd_appearance data) = PrototypeMember (field_type args)) /\
    (editorMap !! field_type args = None ->
     field_type args ∉ objectPrototypeMembers ->
       editor (fd_appearance data) = EditorName "default_editor").
Proof.
  intros Ha Hcol Hst Hv Hc.
  rewrite (handler_trace_after_validate _ _ _ _ Hv Hc).
  eexists. split; [reflexivity|].
  apply validateAndProcess_returns in Hv as [_ ->]. rewrite Ha.
  apply String.eqb_neq in Hcol, Hst.
  unfold processAppearance, default_structured_text, force_color, fieldData.
  simpl. rewrite Hcol, Hst. simpl. split; [done|].
  unfold getDefaultEditor. split; [|split].
  - intros name Hname. by rewrite Hname, (editorMap_entries_truthy _ _ Hname).
  - intros Hin. rewrite (editorMap_no_prototype_name _ Hin).
    by rewrite bool_decide_eq_true_2.
  - intros Hnone Hnin. rewrite Hnone. by rewrite bool_decide_eq_false_2.
Qed.

(** X10.  For a kind other than [string], [lat_lon], [color] and
    [structured_text], an appearance that already has addons is sent as the
    caller gave it. *)
Theorem complete_appearance_unchanged args a ads pa client t :
  appearance args = Some a ->
  addons a = Some ads ->
  Forall (fun kind => field_type args <> kind)
    ["string"; "lat_lon"; "color"; "structured_text"] ->
  validateAndProcess args t = (Return pa, t) ->
  getDefaultClient (apiToken args) (environment args) = Return client ->
  exists data,
    (createFieldHandler args t).2 =
      t ++ [EvGetClient (apiToken args) (environment args);
            EvFieldsCreate (itemTypeId args) data] /\
    fd_appearance data = a.
Proof.
  intros Ha Hads Hk Hv Hc.
  rewrite (handler_trace_after_validate _ _ _ _ Hv Hc).
  eexists. split; [reflexivity|].
  apply validateAndProcess_returns in Hv as [_ ->]. rewrite Ha.
  apply Forall_cons in Hk as [H1 Hk]. apply Forall_cons in Hk as [H2 Hk].
  apply Forall_cons in Hk as [H3 Hk]. apply Forall_cons in Hk as [H4 _].
  apply String.eqb_neq in H1, H2, H3, H4.
  unfold processAppearance, default_structured_text, force_color, correct_lat_lon,
    ensure_addons, default_heading, fieldData.
  rewrite H1. simpl. rewrite Hads, H2. simpl. by rewrite H3, H4.
Qed.

End MoreFieldCreation.
(** ** Record duplication and the project router *)

Section MoreDuplication.
Context {B : Backend}.

(** X17.  A failure of [getDefaultClient] or of [client.items.duplicate]
    leaves the handler as it was thrown; after a failed
    [getDefaultClient] the duplicate call is not made. *)
Theorem duplicate_client_errors_propagate args e t :
  getDefaultClient (dup_apiToken args) (dup_environment args) = Throw e \/
  (exists client,
     getDefaultClient (dup_apiToken args) (dup_environment args) = Return client /\
     items_duplicate client (dup_itemId args) = Throw e) ->
  exists calls,
    duplicateRecordHandler args t =
      (Throw e, t ++ EvGetClient (dup_apiToken args) (dup_environment args) :: calls) /\
    (getDefaultClient (dup_apiToken args) (dup_environment args) = Throw e ->
     calls = []).
Proof.
  unfold duplicateRecordHandler, bind, call.
  intros [Hc|(client & Hc & Hd)]; rewrite Hc.
  - by exists [].
  - rewrite Hd. exists [EvItemsDuplicate (dup_itemId args)].
    rewrite <- app_assoc. split; [done|]. intros [=].
Qed.

(** X18.  Whatever the arguments, the handler builds the client and calls
    [client.items.duplicate] at most once, and a value it returns is built
    by [createResponse]. *)
Theorem duplicate_calls_client_once args t :
  ((duplicateRecordHandler args t).2 =
     t ++ [EvGetClient (dup_apiToken args) (dup_environment args)] \/
   (duplicateRecordHandler args t).2 =
     t ++ [EvGetClient (dup_apiToken args) (dup_environment args);
           EvItemsDuplicate (dup_itemId args)]) /\
  forall v, (duplicateRecordHandler args t).1 = Return v ->
            exists text, v = createResponse text.
Proof.
  unfold duplicateRecordHandler, bind, call, throw_if, lift, ret, throw.
  split.
  - branches; rewrite <- ?app_assoc; eauto.
  - intros v. branches; intros [= <-]; eauto.
Qed.

End MoreDuplication.

Section MoreRouter.
Import Router.
Context {B : Backend} {D : ProjectDomain}.

Lemma render_failure_silent hr t : (render_failure hr t).2 = t.
Proof. unfold render_failure, bind, lift, ret, throw. branches. Qed.

Lemma render_silent hr t : (render hr t).2 = t.
Proof.
  unfold render, bind, lift, ret.
  branches; try apply render_failure_silent.
Qed.

(** X19.  For a non-empty argument bag and an action without a schema,
    the router returns the unsupported-action error, which lists every valid
    action, and calls neither [parse] nor a handler. *)
Theorem unsupported_action_lists_valid action args t :
  size args <> 0 ->
  projectSchemas action = None ->
  route action (Some args) t =
    (Return (createErrorResponse
               (JStr ("Error: Unsupported action '" +:+ action +:+
                      "'. Valid actions are: " +:+ join ", " projectActionsList))), t) /\
  forall valid, valid ∈ projectActionsList ->
    includes ("Error: Unsupported action '" +:+ action +:+
              "'. Valid actions are: " +:+ join ", " projectActionsList) valid = true.
Proof.
  intros Hs Hsch. split.
  - unfold route, try_catch. simpl. apply Nat.eqb_neq in Hs. by rewrite Hs, Hsch.
  - intros valid Hin. do 3 apply includes_append_r. by apply includes_join_line.
Qed.

(** X20.  Whatever the call, the router calls nothing, or [parse] alone,
    or [parse] and then one handler: the handler of [get_info] or
    [update_site_settings], on the value [parse] returned. *)
Theorem handler_called_only_on_validated_args action args t :
  (route action args t).2 = t \/
  (route action args t).2 = t ++ [EvParse action (default ∅ args)] \/
  exists schema v,
    projectSchemas action = Some schema /\
    parse schema (default ∅ args) = Return v /\
    (action = "get_info" \/ action = "update_site_settings") /\
    (route action args t).2 =
      t ++ [EvParse action (default ∅ args); EvHandler action v].
Proof.
  unfold route, try_catch, ret.
  destruct (size (default ∅ args) =? 0); [by left|].
  destruct (projectSchemas action) as [schema|] eqn:Hsch; [|by left].
  assert (forall e t1, (match on_validation_error action schema e t1 with
           | (Return a, t') => (Return a, t')
           | (Throw e', t') =>
               (Return (createErrorResponse
                          (JStr (error_in_router (extractDetailedErrorInfo e')))), t')
           end).2 = t1) as Hcatch.
  { intros e t1. pose proof (on_validation_error_silent action schema e t1) as Hs.
    by destruct (on_validation_error action schema e t1) as [[?|?] ?]. }
  unfold validate_and_dispatch, bind at 1, call.
  destruct (parse schema (default ∅ args)) as [v|e] eqn:Hp.
  2:{ right; left. apply Hcatch. }
  unfold dispatch.
  destruct (String.eqb action "get_info") eqn:E1;
    [|destruct (String.eqb action "update_site_settings") eqn:E2].
  3:{ right; left. unfold throw. apply Hcatch. }
  all: right; right; exists schema, v; split; [done|]; split; [done|].
  all: split; [apply String.eqb_eq in E1 || apply String.eqb_eq in E2; eauto|].
  all: unfold bind, call; rewrite <- app_assoc; simpl.
  all: match goal with
       | |- context [getProjectInfoHandler ?x] =>
           destruct (getProjectInfoHandler x) as [hr|e]
       | |- context [updateSiteSettingsHandler ?x] =>
           destruct (updateSiteSettingsHandler x) as [hr|e]
       end.
  all: try apply Hcatch.
  all: pose proof (render_silent hr (t ++ [EvParse action (default ∅ args); EvHandler action v])) as Hr.
  all: destruct (render hr _) as [[?|?] ?]; simpl in *; subst; [done|apply Hcatch].
Qed.

(** After a successful validation and handler call, the router is the
    rendering of the handler's result inside the two [catch] blocks. *)
Lemma route_after_handler action args schema v hr t :
  size args <> 0 ->
  projectSchemas action = Some schema ->
  parse schema args = Return v ->
  (action = "get_info" /\ getProjectInfoHandler v = hr) \/
  (action = "update_site_settings" /\ updateSiteSettingsHandler v = hr) ->
  route action (Some args) t =
    try_catch
      (try_catch (handlerResult <- lift hr ;; render handlerResult)
                 (on_validation_error action schema))
      (fun error =>
         ret (createErrorResponse
                (JStr (error_in_router (extractDetailedErrorInfo error)))))
      (t ++ [EvParse action args; EvHandler action v]).
Proof.
  intros Hs Hsch Hp Hh. unfold route. simpl.
  apply Nat.eqb_neq in Hs. rewrite Hs, Hsch.
  unfold try_catch, validate_and_dispatch, bind at 1, call. rewrite Hp.
  unfold dispatch, bind, call, lift.
  destruct Hh as [[-> <-]|[-> <-]]; simpl; by rewrite <- app_assoc.
Qed.

(** When the rendering returns, so does the router, with the same value. *)
Lemma route_renders action args schema v hr r t :
  size args <> 0 ->
  projectSchemas action = Some schema ->
  parse schema args = Return v ->
  (action = "get_info" /\ getProjectInfoHandler v = Return hr) \/
  (action = "update_site_settings" /\ updateSiteSettingsHandler v = Return hr) ->
  (forall t', render hr t' = (Return r, t')) ->
  route action (Some args) t =
    (Return r, t ++ [EvParse action args; EvHandler action v]).
Proof.
  intros Hs Hsch Hp Hh Hr.
  rewrite (route_after_handler _ _ _ _ (Return hr) _ Hs Hsch Hp Hh).
  unfold try_catch, bind, lift. by rewrite Hr.
Qed.

(** X21.  A throw of the routed handler is caught by the [catch] of the
    validation: when it is no [ZodError] the router returns "Error
    validating arguments: " followed by the extracted information; when it
    is a [ZodError] the router returns the validation error of the caller's
    parameters, with the handler's issues. *)
Theorem handler_failure_reported action args schema v e t :
  size args <> 0 ->
  projectSchemas action = Some schema ->
  parse schema args = Return v ->
  (action = "get_info" /\ getProjectInfoHandler v = Throw e) \/
  (action = "update_site_settings" /\ updateSiteSettingsHandler v = Throw e) ->
  (instanceof_ZodError e = false ->
   route action (Some args) t =
     (Return (createErrorResponse
                (JStr ("Error validating arguments: " +:+ extractDetailedErrorInfo e))),
      t ++ [EvParse action args; EvHandler action v])) /\
  (forall issues text,
     e = ZodError issues ->
     JSON_stringify (formatSchemaForDisplay schema) = Return text ->
     route action (Some args) t =
       (Return (createErrorResponse
                  (JStr (validation_error action (formatZodError issues) (to_string text)))),
        t ++ [EvParse action args; EvHandler action v])).
Proof.
  intros Hs Hsch Hp Hh.
  rewrite (route_after_handler _ _ _ _ (Throw e) _ Hs Hsch Hp Hh).
  unfold try_catch, bind, lift. split.
  - intros Hz. by destruct e.
  - intros issues text -> Hj. simpl. unfold bind, lift. by rewrite Hj.
Qed.

(** X22.  A handler result that has a [content] member is returned by the
    router as it is. *)
Theorem prebuilt_response_passes_through action args schema v hr t :
  size args <> 0 ->
  projectSchemas action = Some schema ->
  parse schema args = Return v ->
  (action = "get_info" /\ getProjectInfoHandler v = Return hr) \/
  (action = "update_site_settings" /\ updateSiteSettingsHandler v = Return hr) ->
  has_in "content" hr = true ->
  route action (Some args) t =
    (Return hr, t ++ [EvParse action args; EvHandler action v]).
Proof.
  intros Hs Hsch Hp Hh Hc. apply (route_renders _ _ _ _ _ _ _ Hs Hsch Hp Hh).
  intros t'. destruct hr; try done. unfold render. simpl in *. by rewrite Hc.
Qed.

(** X23.  A handler result without [content] and with a truthy [success]
    is returned as [createResponse] of the serialised [data] (of [{}] when
    [data] is falsy), followed by a blank line and the message when the
    result has a truthy [message]. *)
Theorem typed_success_rendered action args schema v o s rc t :
  size args <> 0 ->
  projectSchemas action = Some schema ->
  parse schema args = Return v ->
  (action = "get_info" /\ getProjectInfoHandler v = Return (JObj o)) \/
  (action = "update_site_settings" /\ updateSiteSettingsHandler v = Return (JObj o)) ->
  o !! "content" = None ->
  o !! "success" = Some s ->
  truthy s = true ->
  JSON_stringify (or_else (prop o "data") (JObj ∅)) = Return rc ->
  route action (Some args) t =
    (Return (createResponse
               (if truthy (prop o "message")
                then JStr (to_string rc +:+ Msg.nl +:+ Msg.nl +:+
                           to_string (prop o "message"))
                else rc)),
     t ++ [EvParse action args; EvHandler action v]).
Proof.
  intros Hsz Hsch Hp Hh Hc Hs Ht Hj.
  apply (route_renders _ _ _ _ _ _ _ Hsz Hsch Hp Hh). intros t'.
  unfold render, has_in, member, prop in *. simpl.
  rewrite Hc, Hs. simpl. rewrite Ht. unfold bind, lift. rewrite Hj.
  by destruct (truthy (default JUndefined (o !! "message"))).
Qed.

(** The lines of the list of validation errors, for entries that are
    objects. *)
Lemma validation_error_lines errs :
  map_result validation_error_line (JObj <$> errs) =
  Return ((fun e : JsObj =>
             "  - " +:+ to_string (or_else (prop e "field") (JStr "General")) +:+
             ": " +:+ to_string (prop e "message")) <$> errs).
Proof.
  induction errs as [|e errs IH]; [done|].
  rewrite !fmap_cons. cbn [map_result]. by rewrite IH.
Qed.

(** X24.  A handler result without [content], with a falsy [success] and
    a non-empty list of validation errors is returned as an error response
    whose text starts with the result's [error] (or "Validation failed")
    and the heading "Validation errors:", and holds one line
    [  - field: message] for every entry, with "General" for an entry
    without a field. *)
Theorem typed_failure_lists_validation_errors action args schema v o s errs t :
  size args <> 0 ->
  projectSchemas action = Some schema ->
  parse schema args = Return v ->
  (action = "get_info" /\ getProjectInfoHandler v = Return (JObj o)) \/
  (action = "update_site_settings" /\ updateSiteSettingsHandler v = Return (JObj o)) ->
  o !! "content" = None ->
  o !! "success" = Some s ->
  truthy s = false ->
  o !! "validationErrors" = Some (JArr (JObj <$> errs)) ->
  errs <> [] ->
  exists msg,
    route action (Some args) t =
      (Return (createErrorResponse (JStr msg)),
       t ++ [EvParse action args; EvHandler action v]) /\
    String.prefix
      (to_string (or_else (prop o "error") (JStr "Validation failed")) +:+
       Msg.nl +:+ Msg.nl +:+ "Validation errors:" +:+ Msg.nl) msg = true /\
    forall e, e ∈ errs ->
      includes msg
        ("  - " +:+ to_string (or_else (prop e "field") (JStr "General")) +:+
         ": " +:+ to_string (prop e "message")) = true.
Proof.
  intros Hsz Hsch Hp Hh Hc Hs Ht Hve Hne. eexists. split; [|split].
  - apply (route_renders _ _ _ _ _ _ _ Hsz Hsch Hp Hh). intros t'.
    unfold render, render_failure, has_in, member, prop in *. simpl.
    rewrite Hc, Hs. simpl. rewrite Ht, Hve. simpl.
    rewrite length_fmap. destruct errs as [|e0 errs]; [done|]. simpl length.
    cbn [Nat.ltb Nat.leb]. unfold bind, lift.
    rewrite validation_error_lines. reflexivity.
  - rewrite <- !append_assoc. apply prefix_append.
  - intros e He. do 4 apply includes_append_r.
    apply includes_join_line. apply list_elem_of_fmap. by exists e.
Qed.

(** X25.  A handler result without [content], with a falsy [success] and
    with no validation errors (the member is falsy, or an empty list) is
    returned as [createErrorResponse] of its [error], or of "Unknown error
    occurred" when [error] is falsy. *)
Theorem typed_failure_without_list action args schema v o s t :
  size args <> 0 ->
  projectSchemas action = Some schema ->
  parse schema args = Return v ->
  (action = "get_info" /\ getProjectInfoHandler v = Return (JObj o)) \/
  (action = "update_site_settings" /\ updateSiteSettingsHandler v = Return (JObj o)) ->
  o !! "content" = None ->
  o !! "success" = Some s ->
  truthy s = false ->
  truthy (prop o "validationErrors") = false \/ prop o "validationErrors" = JArr [] ->
  route action (Some args) t =
    (Return (createErrorResponse
               (or_else (prop o "error") (JStr "Unknown error occurred"))),
     t ++ [EvParse action args; EvHandler action v]).
Proof.
  intros Hsz Hsch Hp Hh Hc Hs Ht Hve.
  apply (route_renders _ _ _ _ _ _ _ Hsz Hsch Hp Hh). intros t'.
  unfold render, render_failure, has_in, member in *. simpl.
  rewrite Hc. unfold prop at 1. rewrite Hs. simpl. rewrite Ht.
  by destruct Hve as [-> | ->].
Qed.

(** X26.  A handler result with neither [content] nor [success] (a
    primitive, [null], an array, or another object) is returned as
    [createResponse] of its serialisation. *)
Theorem raw_result_serialised action args schema v hr text t :
  size args <> 0 ->
  projectSchemas action = Some schema ->
  parse schema args = Return v ->
  (action = "get_info" /\ getProjectInfoHandler v = Return hr) \/
  (action = "update_site_settings" /\ updateSiteSettingsHandler v = Return hr) ->
  has_in "content" hr = false ->
  has_in "success" hr = false ->
  JSON_stringify hr = Return text ->
  route action (Some args) t =
    (Return (createResponse text), t ++ [EvParse action args; EvHandler action v]).
Proof.
  intros Hsz Hsch Hp Hh Hc Hs Hj.
  apply (route_renders _ _ _ _ _ _ _ Hsz Hsch Hp Hh). intros t'.
  unfold render, bind, lift, ret. rewrite Hc, Hs, Hj.
  by destruct (truthy hr && typeof_object hr).
Qed.

(** X27.  [formatSchemaForDisplay] always gives an object with a [note]
    that points to the [datocms_parameters] tool.  When [describe()]
    returns, every other member is the description's (a [note] of its own is
    replaced); when it throws, the object has [type] "object" and the
    schema's description, or "No description available". *)
Theorem schema_display_has_note schema :
  exists o note,
    formatSchemaForDisplay schema = JObj o /\
    o !! "note" = Some (JStr note) /\
    includes note "'datocms_parameters' tool" = true /\
    (forall d k, describe schema = Return d -> k <> "note" -> o !! k = d !! k) /\
    (forall e, describe schema = Throw e ->
       o !! "type" = Some (JStr "object") /\
       o !! "description" =
         Some (or_else (description schema) (JStr "No description available"))).
Proof.
  unfold formatSchemaForDisplay. destruct (describe schema) as [d|e].
  - eexists _, _. split; [reflexivity|]. split; [by rewrite lookup_insert_eq|].
    split; [by vm_compute|]. split; [|done].
    intros d' k [= <-] Hk. by rewrite lookup_insert_ne.
  - eexists _, _. split; [reflexivity|]. split; [by vm_compute|].
    split; [by vm_compute|]. split; [done|]. intros _ _. by vm_compute.
Qed.

End MoreRouter.

(** * The further properties on examples *)

Section MoreRuns.
Import Example Router.

(** X2 on an example: a slug field without validators. *)
Lemma companion_validator_required_run :
  createFieldHandler (B := working) (field_of "slug" None None) [] =
    (Throw (JsError Msg.slug_title_field_missing), []) /\
  includes Msg.slug_title_field_missing "'slug_title_field'" = true.
Proof.
  refine (companion_validator_required (B := working) (field_of "slug" None None)
            "slug" "slug_title_field" Msg.slug_title_field_missing [] _ eq_refl eq_refl).
  do 4 apply list_elem_of_further. apply list_elem_of_here.
Defined.

(** X3 on an example: a radio group without validators. *)
Lemma choice_editor_requires_enum_run :
  createFieldHandler (B := working)
    (field_of "string" None (Some (radio_group ["a"; "b"]))) [] =
    (Throw (JsError (Msg.enum_missing "string_radio_group")), []) /\
  includes (Msg.enum_missing "string_radio_group") "string_radio_group" = true.
Proof.
  exact (choice_editor_requires_enum (B := working)
           (field_of "string" None (Some (radio_group ["a"; "b"])))
           (radio_group ["a"; "b"]) [] eq_refl eq_refl (or_introl eq_refl) eq_refl).
Defined.

(** X4 on an example: radios a, b against the enum values a, c. *)
Lemma enum_values_must_match_options_run :
  createFieldHandler (B := working)
    (field_of "string" (Some (enum_of ["a"; "c"])) (Some (radio_group ["a"; "b"]))) [] =
    (Throw (JsError Msg.enum_mismatch), []).
Proof.
  refine (proj1 (enum_values_must_match_options (B := working)
            (field_of "string" (Some (enum_of ["a"; "c"])) (Some (radio_group ["a"; "b"])))
            (radio_group ["a"; "b"]) (enum_of ["a"; "c"])
            {[ "values" := JArr (JStr <$> ["a"; "c"]) ]}
            {[ "radios" := JArr (JObj <$> radio_options ["a"; "b"]) ]}
            (radio_options ["a"; "b"]) ["a"; "b"] ["a"; "c"] []
            eq_refl eq_refl (or_introl eq_refl) eq_refl eq_refl eq_refl eq_refl eq_refl
            eq_refl) _).
  discriminate.
Defined.

(** X5 on an example: a gallery field marked required. *)
Lemma required_flag_rejected_run :
  exists msg,
    createFieldHandler (B := working)
      (field_of "gallery" (Some {[ "required" := JObj ∅ ]}) None) [] =
      (Throw (JsError msg), []) /\
    msg = Msg.required_unsupported.
Proof.
  destruct (required_flag_rejected (B := working)
              (field_of "gallery" (Some {[ "required" := JObj ∅ ]}) None)
              {[ "required" := JObj ∅ ]} (JObj ∅) []
              (or_introl eq_refl) eq_refl) as (msg & Hr & Hm);
    [by vm_compute | discriminate |].
  exists msg. split; [exact Hr|]. apply Hm. by left.
Defined.

(** X6 on an example: a single-line string field without parameters. *)
Lemma single_line_heading_default_run :
  exists data ps,
    (createFieldHandler (B := working)
       (field_of "string" None
          (Some {| editor := "single_line"; parameters := None; addons := None |})) []).2 =
      [EvGetClient (Some "token") None; EvFieldsCreate "model1" data] /\
    parameters (fd_appearance data) = Some ps /\
    ps !! "heading" = Some (JBool false).
Proof.
  destruct (single_line_heading_default (B := working)
              (field_of "string" None
                 (Some {| editor := "single_line"; parameters := None; addons := None |}))
              {| editor := "single_line"; parameters := None; addons := None |} tt []
              eq_refl eq_refl eq_refl eq_refl) as (data & ps & Ht & _ & Hp & Hh & _).
  by exists data, ps.
Defined.

(** X7 on an example: a structured text field without appearance. *)
Lemma structured_text_defaults_run :
  exists data ps ads,
    (createFieldHandler (B := working)
       (field_of "structured_text"
          (Some {[ "structured_text_blocks" := JObj {[ "item_types" := JArr [] ]} ]})
          None) []).2 =
      [EvGetClient (Some "token") None; EvFieldsCreate "model1" data] /\
    fd_appearance data =
      {| editor := "structured_text"; parameters := Some ps; addons := Some ads |} /\
    ps !! "show_links_target_blank" = Some (JBool true).
Proof.
  destruct (structured_text_defaults (B := working)
              (field_of "structured_text"
                 (Some {[ "structured_text_blocks" := JObj {[ "item_types" := JArr [] ]} ]})
                 None) tt []) as (data & ps & ads & Ht & Ha & Hd);
    [by vm_compute | by vm_compute | by vm_compute |].
  exists data, ps, ads. split; [exact Ht|]. split; [exact Ha|].
  apply (Hd "show_links_target_blank" true).
  apply list_elem_of_further, list_elem_of_here.
Defined.

(** X8 on an example: a location field without appearance. *)
Lemma lat_lon_never_old_editor_run :
  exists data,
    (createFieldHandler (B := working) (field_of "lat_lon" None None) []).2 =
      [EvGetClient (Some "token") None; EvFieldsCreate "model1" data] /\
    editor (fd_appearance data) = "map".
Proof.
  destruct (lat_lon_never_old_editor (B := working) (field_of "lat_lon" None None) tt []
              eq_refl eq_refl) as (data & Ht & _ & Hm & _).
  exists data. split; [exact Ht|]. by apply Hm.
Defined.

(** X9 on examples: a text field without appearance, and a field of kind
    [constructor], whose editor is the inherited member. *)
Lemma absent_appearance_synthesized_run :
  (exists data,
     (createFieldHandler (B := working) text_field []).2 =
       [EvGetClient (Some "token") None; EvFieldsCreate "model1" data] /\
     fd_appearance data =
       {| editor := "textarea"; parameters := Some ∅; addons := Some [] |}) /\
  (exists data,
     (createFieldHandler (B := working) (field_of "constructor" None None) []).2 =
       [EvGetClient (Some "token") None; EvFieldsCreate "model1" data] /\
     editor (fd_appearance data) = PrototypeMember "constructor").
Proof.
  split.
  - destruct (absent_appearance_synthesized (B := working) text_field None tt [] eq_refl)
      as (data & Ht & Ha & _); [discriminate | discriminate | reflexivity | reflexivity |].
    by exists data.
  - destruct (absent_appearance_synthesized (B := working)
                (field_of "constructor" None None) None tt [] eq_refl)
      as (data & Ht & _ & _ & Hp & _);
      [discriminate | discriminate | reflexivity | reflexivity |].
    exists data. split; [exact Ht|]. apply Hp. apply list_elem_of_here.
Defined.

(** X10 on an example: a text field with a complete appearance. *)
Lemma complete_appearance_unchanged_run :
  exists data,
    (createFieldHandler (B := working)
       (field_of "text" None
          (Some {| editor := "textarea"; parameters := None; addons := Some [] |})) []).2 =
      [EvGetClient (Some "token") None; EvFieldsCreate "model1" data] /\
    fd_appearance data =
      {| editor := "textarea"; parameters := None; addons := Some [] |}.
Proof.
  refine (complete_appearance_unchanged (B := working)
            (field_of "text" None
               (Some {| editor := "textarea"; parameters := None; addons := Some [] |}))
            {| editor := "textarea"; parameters := None; addons := Some [] |} []
            (Some {| editor := "textarea"; parameters := None; addons := Some [] |})
            tt [] eq_refl eq_refl _ eq_refl eq_refl).
  repeat constructor; discriminate.
Defined.

(** X11 on an example: a text field the client creates. *)
Lemma created_field_reported_run :
  createFieldHandler (B := working) text_field [] =
    (Return (text_content
       (JObj {[ "success" := JBool true;
                "data" := created_field;
                "message" := JStr "Field 'Body' created successfully with ID: f1" ]})),
     [EvGetClient (Some "token") None;
      EvFieldsCreate "model1" (fieldData text_field None)]).
Proof.
  exact (created_field_reported (B := working) text_field None tt created_field []
           eq_refl eq_refl eq_refl eq_refl).
Defined.

(** X12 on an example: a text field the client rejects. *)
Lemma upstream_failure_always_rewrapped_run :
  exists msg,
    createFieldHandler (B := failing unknown_model) text_field [] =
      (Throw (JsError msg),
       [EvGetClient (Some "token") None;
        EvFieldsCreate "model1" (fieldData text_field None)]).
Proof.
  refine (upstream_failure_always_rewrapped (B := failing unknown_model)
            text_field None tt [] eq_refl eq_refl _).
  intros field Hf. discriminate Hf.
Defined.

(** X13 on an example: no client can be built. *)
Lemma client_build_failure_propagates_run :
  createFieldHandler (B := unreachable) text_field [] =
    (Throw (JsError "No API token"), [EvGetClient (Some "token") None]).
Proof.
  exact (client_build_failure_propagates (B := unreachable) text_field None
           (JsError "No API token") [] eq_refl eq_refl).
Defined.

(** X14 on an example: a failure that mentions the addons and the validator. *)
Lemma addons_signature_first_run :
  createFieldHandler (B := failing unknown_model_and_addons) valid_link_field [] =
    (Throw (JsError Msg.addons_required),
     [EvGetClient (Some "token") None;
      EvFieldsCreate "model1" (fieldData valid_link_field None)]).
Proof.
  refine (addons_signature_first (B := failing unknown_model_and_addons)
            valid_link_field None tt unknown_model_and_addons [] eq_refl eq_refl eq_refl _).
  apply includes_spec. by vm_compute.
Defined.

(** X15 on an example: a failure of no known signature. *)
Lemma unmatched_failure_passes_through_run :
  createFieldHandler (B := failing (Thrown (JStr "quota exceeded"))) text_field [] =
    (Throw (JsError "Error creating field: quota exceeded"),
     [EvGetClient (Some "token") None;
      EvFieldsCreate "model1" (fieldData text_field None)]) /\
  includes "Error creating field: quota exceeded" "quota exceeded" = true.
Proof.
  refine (unmatched_failure_passes_through (B := failing (Thrown (JStr "quota exceeded")))
            text_field None tt (Thrown (JStr "quota exceeded")) []
            eq_refl eq_refl eq_refl _ _).
  - discriminate.
  - repeat constructor.
Defined.

(** X16 on an example: the same failure on a colour field. *)
Lemma color_failure_hides_upstream_text_run :
  createFieldHandler (B := failing (Thrown (JStr "quota exceeded"))) color_field [] =
    (Throw (JsError Msg.color_field_error),
     [EvGetClient (Some "token") None;
      EvFieldsCreate "model1"
        (fieldData color_field (processAppearance "color" (appearance color_field)))]).
Proof.
  refine (color_failure_hides_upstream_text (B := failing (Thrown (JStr "quota exceeded")))
            color_field tt (Thrown (JStr "quota exceeded")) [] eq_refl eq_refl eq_refl _).
  repeat constructor.
Defined.

(** X17 on an example: the duplicate call fails. *)
Lemma duplicate_client_errors_propagate_run :
  exists calls,
    duplicateRecordHandler (B := unduplicating (JsError "down")) (duplicate_args None) [] =
      (Throw (JsError "down"), EvGetClient (Some "token") None :: calls).
Proof.
  destruct (duplicate_client_errors_propagate (B := unduplicating (JsError "down"))
              (duplicate_args None) (JsError "down") []) as (calls & Hr & _).
  - right. exists tt. by split.
  - by exists calls.
Defined.

(** X19 on an example: an action the registry does not know. *)
Lemma unsupported_action_lists_valid_run :
  route (B := working) (D := accepting) "publish" (Some {[ "x" := JNum 1 ]}) [] =
    (Return (text_content
       (JStr "Error: Unsupported action 'publish'. Valid actions are: get_info, update_site_settings")),
     []).
Proof.
  refine (proj1 (unsupported_action_lists_valid (B := working) (D := accepting)
                   "publish" {[ "x" := JNum 1 ]} [] _ eq_refl)).
  by vm_compute.
Defined.

(** X21 on an example: the handler of get_info throws. *)
Lemma handler_failure_reported_run :
  route (B := working) (D := throwing (JsError "down")) "get_info"
        (Some {[ "x" := JNum 1 ]}) [] =
    (Return (text_content (JStr "Error validating arguments: down")),
     [EvParse "get_info" {[ "x" := JNum 1 ]}; EvHandler "get_info" (JObj ∅)]).
Proof.
  refine (proj1 (handler_failure_reported (B := working) (D := throwing (JsError "down"))
                   "get_info" {[ "x" := JNum 1 ]} tt (JObj ∅) (JsError "down") []
                   _ eq_refl eq_refl (or_introl (conj eq_refl eq_refl))) eq_refl).
  by vm_compute.
Defined.

(** X22 on an example: the handler returns an envelope. *)
Lemma prebuilt_response_passes_through_run :
  route (B := working) (D := answering (text_content (JStr "done"))) "get_info"
        (Some {[ "x" := JNum 1 ]}) [] =
    (Return (text_content (JStr "done")),
     [EvParse "get_info" {[ "x" := JNum 1 ]}; EvHandler "get_info" (JObj ∅)]).
Proof.
  refine (prebuilt_response_passes_through (B := working)
            (D := answering (text_content (JStr "done")))
            "get_info" {[ "x" := JNum 1 ]} tt (JObj ∅) (text_content (JStr "done")) []
            _ eq_refl eq_refl (or_introl (conj eq_refl eq_refl)) eq_refl).
  by vm_compute.
Defined.

(** X23 on an example: a success without data and with a message. *)
Lemma typed_success_rendered_run :
  route (B := working)
        (D := answering (JObj {[ "success" := JBool true; "message" := JStr "Saved" ]}))
        "update_site_settings" (Some {[ "x" := JNum 1 ]}) [] =
    (Return (text_content (JStr ("[object Object]" +:+ Msg.nl +:+ Msg.nl +:+ "Saved"))),
     [EvParse "update_site_settings" {[ "x" := JNum 1 ]};
      EvHandler "update_site_settings" (JObj ∅)]).
Proof.
  refine (typed_success_rendered (B := working)
            (D := answering (JObj {[ "success" := JBool true; "message" := JStr "Saved" ]}))
            "update_site_settings" {[ "x" := JNum 1 ]} tt (JObj ∅)
            {[ "success" := JBool true; "message" := JStr "Saved" ]} (JBool true)
            (JStr "[object Object]") [] _ eq_refl eq_refl
            (or_intror (conj eq_refl eq_refl)) _ _ eq_refl _); by vm_compute.
Defined.

(** X24 on an example: a failure with two validation errors. *)
Lemma typed_failure_lists_validation_errors_run :
  exists msg,
    route (B := working)
          (D := answering
                  (JObj {[ "success" := JBool false;
                           "error" := JStr "Rejected";
                           "validationErrors" :=
                             JArr (JObj <$> [ {[ "field" := JStr "name";
                                                 "message" := JStr "too long" ]};
                                              {[ "message" := JStr "locked" ]} ]) ]}))
          "update_site_settings" (Some {[ "x" := JNum 1 ]}) [] =
      (Return (text_content (JStr msg)),
       [EvParse "update_site_settings" {[ "x" := JNum 1 ]};
        EvHandler "update_site_settings" (JObj ∅)]) /\
    includes msg "  - name: too long" = true /\
    includes msg "  - General: locked" = true.
Proof.
  destruct (typed_failure_lists_validation_errors (B := working)
              (D := answering
                      (JObj {[ "success" := JBool false;
                               "error" := JStr "Rejected";
                               "validationErrors" :=
                                 JArr (JObj <$> [ {[ "field" := JStr "name";
                                                     "message" := JStr "too long" ]};
                                                  {[ "message" := JStr "locked" ]} ]) ]}))
              "update_site_settings" {[ "x" := JNum 1 ]} tt (JObj ∅)
              {[ "success" := JBool false;
                 "error" := JStr "Rejected";
                 "validationErrors" :=
                   JArr (JObj <$> [ {[ "field" := JStr "name";
                                       "message" := JStr "too long" ]};
                                    {[ "message" := JStr "locked" ]} ]) ]}
              (JBool false)
              [ {[ "field" := JStr "name"; "message" := JStr "too long" ]};
                {[ "message" := JStr "locked" ]} ] [])
    as (msg & Hr & _ & Hlines);
    [by vm_compute | reflexivity | reflexivity | right; by split
    | by vm_compute | by vm_compute | reflexivity | by vm_compute | discriminate |].
  exists msg. split; [exact Hr|]. split.
  - pose proof (Hlines {[ "field" := JStr "name"; "message" := JStr "too long" ]}
                  (list_elem_of_here _ _)) as Hl.
    vm_compute to_string in Hl. exact Hl.
  - pose proof (Hlines {[ "message" := JStr "locked" ]}
                  (list_elem_of_further _ _ _ (list_elem_of_here _ _))) as Hl.
    vm_compute to_string in Hl. exact Hl.
Defined.

(** X25 on an example: a failure with an empty list of validation errors. *)
Lemma typed_failure_without_list_run :
  route (B := working)
        (D := answering (JObj {[ "success" := JBool false;
                                 "validationErrors" := JArr [] ]}))
        "get_info" (Some {[ "x" := JNum 1 ]}) [] =
    (Return (text_content (JStr "Unknown error occurred")),
     [EvParse "get_info" {[ "x" := JNum 1 ]}; EvHandler "get_info" (JObj ∅)]).
Proof.
  refine (typed_failure_without_list (B := working)
            (D := answering (JObj {[ "success" := JBool false;
                                     "validationErrors" := JArr [] ]}))
            "get_info" {[ "x" := JNum 1 ]} tt (JObj ∅)
            {[ "success" := JBool false; "validationErrors" := JArr [] ]} (JBool false) []
            _ eq_refl eq_refl (or_introl (conj eq_refl eq_refl)) _ _ eq_refl
            (or_intror _)); by vm_compute.
Defined.

(** X26 on an example: the handler returns an array. *)
Lemma raw_result_serialised_run :
  route (B := working) (D := answering (JArr [JNum 1; JNum 2])) "get_info"
        (Some {[ "x" := JNum 1 ]}) [] =
    (Return (text_content (JStr "1,2")),
     [EvParse "get_info" {[ "x" := JNum 1 ]}; EvHandler "get_info" (JObj ∅)]).
Proof.
  refine (raw_result_serialised (B := working) (D := answering (JArr [JNum 1; JNum 2]))
            "get_info" {[ "x" := JNum 1 ]} tt (JObj ∅) (JArr [JNum 1; JNum 2])
            (JStr "1,2") [] _ eq_refl eq_refl (or_introl (conj eq_refl eq_refl))
            eq_refl eq_refl _); by vm_compute.
Defined.

End MoreRuns.
